(** * Legio front end of the PRat distortion: control mapping and dispatch

    A shallow embedding of [src/legio/legio.cpp]: the audio callback
    ([AudioCallback], lines 39-140) and the status loop of [main]
    (lines 143-183), followed by the properties of the control core.

    - [float] is IEEE-754 binary32, through the Standard Library's
      [SpecFloat] at precision 24 and exponent bound 128.
    - The static locals of [AudioCallback] are the record [Statics]; the
      process-wide variables are the record [World].
    - The distortion engine, the noise gate and the catch values live in
      headers that are not part of the sources ([PRatDist.h], [NoiseGate.h],
      [GrabValue.h]); they are interfaces here, and every call the callback
      makes on them is recorded, in program order, in a trace of [Event]s. *)

From Stdlib Require Import ZArith QArith List Bool Lia.
From Stdlib Require Import Floats.SpecFloat.
Import ListNotations.
Close Scope Q_scope.

(** ** binary32 arithmetic *)

Definition float : Set := spec_float.

Module F32.

Definition prec : Z := 24.
Definition emax : Z := 128.

(** Conversion of a C++ [int] to [float] (round to nearest even). *)
Definition of_int (z : Z) : float := binary_normalize prec emax z 0 false.

Definition add : float -> float -> float := SFadd prec emax.
Definition mul : float -> float -> float := SFmul prec emax.
Definition div : float -> float -> float := SFdiv prec emax.
Definition opp : float -> float := SFopp.
Definition abs : float -> float := SFabs.

(** The well-formed binary32 values, and the rational a finite one
    denotes: (-1)^s * m * 2^e. *)
Definition valid (x : float) : bool := valid_binary prec emax x.

Definition to_Q (x : float) : option Q :=
  match x with
  | S754_zero _ => Some (inject_Z 0)
  | S754_finite s m e =>
      let mag := if (0 <=? e)%Z then inject_Z (Z.pos m * 2 ^ e)
                 else Qmake (Z.pos m) (Z.to_pos (2 ^ (- e))) in
      Some (if s then Qopp mag else mag)
  | _ => None
  end.

(** [a < b], [a > b], [a >= b]; all false when an operand is NaN. *)
Definition ltb : float -> float -> bool := SFltb.
Definition gtb (a b : float) : bool := SFltb b a.
Definition geb (a b : float) : bool := SFleb b a.

(** The decimal literal [n/d] of the source, rounded once to binary32:
    both operands are exact and the division is correctly rounded. *)
Definition lit (n d : Z) : float := div (of_int n) (of_int d).

Definition zero : float := Eval vm_compute in of_int 0.          (* 0.f   *)
Definition one : float := Eval vm_compute in of_int 1.           (* 1.f   *)
Definition half : float := Eval vm_compute in lit 1 2.           (* 0.5f  *)
Definition five : float := Eval vm_compute in of_int 5.          (* 5.f   *)
Definition c2_5 : float := Eval vm_compute in lit 5 2.           (* 2.5f  *)
Definition c0_4 : float := Eval vm_compute in lit 2 5.           (* 0.4f  *)
Definition c0_05 : float := Eval vm_compute in lit 1 20.         (* 0.05f *)

End F32.

(** Modelled from the spec: [fclamp] comes with the DSP library and is not
    part of the sources; the spec calls it [clamp(x, 0, 1)].  DaisySP has
    [fclamp(in, min, max) = fmin(fmax(in, min), max)] with
    [fmax(a, b) = (a > b) ? a : b] and [fmin(a, b) = (a < b) ? a : b]. *)
Definition fmax (a b : float) : float := if F32.gtb a b then a else b.
Definition fmin (a b : float) : float := if F32.ltb a b then a else b.
Definition fclamp (x lo hi : float) : float := fmin (fmax x lo) hi.

(** An audio buffer of one block: [size] samples. *)
Definition buf : Set := list float.

(** ** Hardware snapshot

    What [hw.ProcessAnalogControls()] and the digital reads yield for one
    block.  [Encoder::Increment()] is integral (the spec's
    [encoderDelta] is an integer). *)

Inductive Switch3 : Set := POS_CENTER | POS_UP | POS_DOWN.

Definition Switch3_eqb (a b : Switch3) : bool :=
  match a, b with
  | POS_CENTER, POS_CENTER | POS_UP, POS_UP | POS_DOWN, POS_DOWN => true
  | _, _ => false
  end.

Record Controls : Set := {
  knob_top : float;          (* hw.GetKnobValue(CONTROL_KNOB_TOP)    *)
  knob_bottom : float;       (* hw.GetKnobValue(CONTROL_KNOB_BOTTOM) *)
  enc_pressed : bool;        (* hw.encoder.Pressed()                 *)
  enc_increment : Z;         (* hw.encoder.Increment()               *)
  pitch_cv : float;          (* hw.controls[CONTROL_PITCH].Value()   *)
  sw_left : Switch3;         (* hw.sw[SW_LEFT].Read()                *)
  sw_right : Switch3;        (* hw.sw[SW_RIGHT].Read()               *)
  gate_in : bool             (* hw.Gate()                            *)
}.

(** ** Collaborators *)

Inductive DistParam : Set :=
  P_GAIN | P_FILTER | P_LEVEL | P_DRYWET | P_SILED
| P_HARD | P_TIGHT | P_RUETZ | P_BYPASS.

Inductive NgParam : Set :=
  P_THRESHOLD | P_RELEASE | P_DETECTOR_GAIN | P_REDUCTION | P_SLOPE
| P_NG_BYPASS.   (* NoiseGate::P_BYPASS *)

Definition DistParam_eqb (a b : DistParam) : bool :=
  match a, b with
  | P_GAIN, P_GAIN | P_FILTER, P_FILTER | P_LEVEL, P_LEVEL
  | P_DRYWET, P_DRYWET | P_SILED, P_SILED | P_HARD, P_HARD
  | P_TIGHT, P_TIGHT | P_RUETZ, P_RUETZ | P_BYPASS, P_BYPASS => true
  | _, _ => false
  end.

(** Modelled from the spec: [GrabValue.h] is not part of the sources.  The
    spec gives [Update(raw)], [Lock()] and [Get()]; [Lock] "leaves
    heldValue unchanged", [Get] "returns heldValue", and a control
    constructed from [v] holds [v].  How [Update] catches is left open. *)
Class GrabValue (GV : Type) : Type := {
  gv_make : float -> GV;
  gv_Update : float -> GV -> GV;
  gv_Lock : GV -> GV;
  gv_Get : GV -> float;
  gv_Get_make : forall v, gv_Get (gv_make v) = v;
  gv_Get_Lock : forall g, gv_Get (gv_Lock g) = gv_Get g
}.

(** Modelled from the spec: [PRatDist.h] is not part of the sources; the
    callback uses [SetParam], [Update], [Process(inL, inR, outL, outR, size)]
    and [GetSaturation].  [Process] returns the engine and the two buffers
    it wrote. *)
Class PRatDist (D : Type) : Type := {
  dist_SetParam : DistParam -> float -> D -> D;
  dist_Update : D -> D;
  dist_Process : buf -> buf -> D -> D * (buf * buf);
  dist_GetSaturation : D -> float
}.

(** Modelled from the spec: [NoiseGate.h] is not part of the sources.
    [Process] takes three input buffers, in the order of the call at line
    132, and returns the engine and the two buffers it wrote. *)
Class NoiseGate (G : Type) : Type := {
  ng_SetParam : NgParam -> float -> G -> G;
  ng_Update : G -> G;
  ng_Process : buf -> buf -> buf -> G -> G * (buf * buf);
  ng_GetEnvelope : G -> float
}.

(** The four catch values of the callback, by the name of their variable. *)
Inductive Ctl : Set := CV_FILTER | CV_MIX | NG_THRESHOLD | NG_RELEASE.

(** One call on a collaborator. *)
Inductive Event : Set :=
| GrabUpdate (c : Ctl) (raw : float)
| GrabLock (c : Ctl)
| DistSetParam (p : DistParam) (v : float)
| DistUpdate
| NgSetParam (p : NgParam) (v : float)
| NgUpdate
| DistProcess (inL inR : buf)
| NgProcess (a1 a2 a3 : buf).

Definition is_NgUpdate (e : Event) : bool :=
  match e with NgUpdate => true | _ => false end.

Definition is_NgSetParam (e : Event) : bool :=
  match e with NgSetParam _ _ => true | _ => false end.

(** The calls of a trace that configure the gate ([SetParam], [Update]). *)
Definition ng_config (t : list Event) : list Event :=
  filter (fun e => is_NgSetParam e || is_NgUpdate e) t.

(** How often the gate's [Update] runs in a trace: the call counter of an
    instrumented gate. *)
Definition ng_updates (t : list Event) : nat :=
  length (filter is_NgUpdate t).

(** The values pushed for distortion parameter [p] in a trace, in order. *)
Definition dist_pushed (p : DistParam) (t : list Event) : list float :=
  flat_map (fun e => match e with
                     | DistSetParam q v => if DistParam_eqb p q then [v] else []
                     | _ => []
                     end) t.

(** The values pushed for gate parameter [p] in a trace, in order. *)
Definition ng_pushed (p : NgParam) (t : list Event) : list float :=
  flat_map (fun e => match e, p with
                     | NgSetParam P_THRESHOLD v, P_THRESHOLD
                     | NgSetParam P_RELEASE v, P_RELEASE
                     | NgSetParam P_DETECTOR_GAIN v, P_DETECTOR_GAIN
                     | NgSetParam P_REDUCTION v, P_REDUCTION
                     | NgSetParam P_SLOPE v, P_SLOPE
                     | NgSetParam P_NG_BYPASS v, P_NG_BYPASS => [v]
                     | _, _ => []
                     end) t.

(** The status LEDs and the calls [main] makes on them. *)
Inductive Led : Set := LED_LEFT | LED_RIGHT.

Inductive LedCall : Set :=
| SetLed (l : Led) (r g b : float)
| UpdateLeds.

(** The two states of the boot sequence. *)
Inductive BootState : Set := BLINKING | READY.

(** ** Program state *)

Section Program.

Context {GV D G : Type}.
Context {grab : GrabValue GV} {distE : PRatDist D} {gateE : NoiseGate G}.

(** The static locals of [AudioCallback] (lines 43-53). *)
Record Statics : Type := {
  first : bool;
  cur_gain : float;
  cur_level : float;
  cv_filter : GV;
  cv_mix : GV;
  ng_threshold : GV;
  ng_release : GV
}.

(** Their initial values. *)
Definition statics_init : Statics := {|
  first := true;
  cur_gain := F32.half;
  cur_level := F32.half;
  cv_filter := gv_make F32.zero;
  cv_mix := gv_make F32.zero;
  ng_threshold := gv_make F32.c0_4;
  ng_release := gv_make F32.half
|}.

(** The process-wide variables (lines 23-36) with the callback's statics. *)
Record World : Type := {
  initialized : bool;
  dist : D;
  ng : G;
  envVal : float;
  satVal : float;
  statics : Statics
}.

(** The state [main] hands to the audio transport at line 161, for
    engines [d0] and [g0] as lines 152-157 leave them. *)
Definition world_init (d0 : D) (g0 : G) : World := {|
  initialized := false;
  dist := d0;
  ng := g0;
  envVal := F32.zero;
  satVal := F32.zero;
  statics := statics_init
|}.

(** Effect of one recorded call on the catch values. *)
Definition exec_grab (st : Statics) (e : Event) : Statics :=
  let upd c f :=
    match c with
    | CV_FILTER =>
        {| first := first st; cur_gain := cur_gain st;
           cur_level := cur_level st;
           cv_filter := f (cv_filter st); cv_mix := cv_mix st;
           ng_threshold := ng_threshold st; ng_release := ng_release st |}
    | CV_MIX =>
        {| first := first st; cur_gain := cur_gain st;
           cur_level := cur_level st;
           cv_filter := cv_filter st; cv_mix := f (cv_mix st);
           ng_threshold := ng_threshold st; ng_release := ng_release st |}
    | NG_THRESHOLD =>
        {| first := first st; cur_gain := cur_gain st;
           cur_level := cur_level st;
           cv_filter := cv_filter st; cv_mix := cv_mix st;
           ng_threshold := f (ng_threshold st);
           ng_release := ng_release st |}
    | NG_RELEASE =>
        {| first := first st; cur_gain := cur_gain st;
           cur_level := cur_level st;
           cv_filter := cv_filter st; cv_mix := cv_mix st;
           ng_threshold := ng_threshold st;
           ng_release := f (ng_release st) |}
    end in
  match e with
  | GrabUpdate c raw => upd c (gv_Update raw)
  | GrabLock c => upd c gv_Lock
  | _ => st
  end.

(** Effect of one recorded call on the distortion engine. *)
Definition exec_dist (d : D) (e : Event) : D :=
  match e with
  | DistSetParam p v => dist_SetParam p v d
  | DistUpdate => dist_Update d
  | _ => d
  end.

(** Effect of one recorded call on the gate. *)
Definition exec_ng (g : G) (e : Event) : G :=
  match e with
  | NgSetParam p v => ng_SetParam p v g
  | NgUpdate => ng_Update g
  | _ => g
  end.

(** ** The audio callback, by segment *)

(** Line 63. *)
Definition shift_of (hw : Controls) (st : Statics) : bool :=
  enc_pressed hw && negb (first st).

(** Lines 68-80: the two knobs drive one pair of catch values; the other
    pair is locked. *)
Definition multiplex (shift : bool) (cv0 cv1 : float) : list Event :=
  if negb shift then
    [GrabUpdate CV_FILTER cv0; GrabUpdate CV_MIX cv1;
     GrabLock NG_THRESHOLD; GrabLock NG_RELEASE]
  else
    [GrabLock CV_FILTER; GrabLock CV_MIX;
     GrabUpdate NG_THRESHOLD cv0; GrabUpdate NG_RELEASE cv1].

(** Line 82: [hw.encoder.Increment() / 16] divides two integers, which in
    C++ truncates toward zero, and the quotient is then converted to
    [float]. *)
Definition encInc_of (hw : Controls) : float :=
  F32.of_int (Z.quot (enc_increment hw) 16).

(** Lines 83-87. *)
Definition encoder_step (shift : bool) (encInc : float) (st : Statics)
  : Statics :=
  if shift then
    {| first := first st; cur_gain := cur_gain st;
       cur_level := fclamp (F32.add (cur_level st) encInc) F32.zero F32.one;
       cv_filter := cv_filter st; cv_mix := cv_mix st;
       ng_threshold := ng_threshold st; ng_release := ng_release st |}
  else
    {| first := first st;
       cur_gain := fclamp (F32.add (cur_gain st) encInc) F32.zero F32.one;
       cur_level := cur_level st;
       cv_filter := cv_filter st; cv_mix := cv_mix st;
       ng_threshold := ng_threshold st; ng_release := ng_release st |}.

(** Lines 99-102: the mode flags. *)
Definition hard_of (hw : Controls) : float :=
  if Switch3_eqb (sw_left hw) POS_CENTER || gate_in hw
  then F32.one else F32.zero.
Definition bypass_of (hw : Controls) : float :=
  if Switch3_eqb (sw_left hw) POS_DOWN then F32.one else F32.zero.
Definition ruetz_of (hw : Controls) : float :=
  if Switch3_eqb (sw_right hw) POS_CENTER then F32.one else F32.zero.
Definition tight_of (hw : Controls) : float :=
  if Switch3_eqb (sw_right hw) POS_DOWN then F32.one else F32.zero.

(** Lines 104-119: the calls on the distortion engine. *)
Definition dist_dispatch
  (gain filter level mix hard tight ruetz bypass : float) : list Event :=
  [DistSetParam P_GAIN gain;
   DistSetParam P_FILTER filter;
   DistSetParam P_LEVEL level]
  ++ (if F32.geb hard F32.half then
        [DistSetParam P_DRYWET F32.one; DistSetParam P_SILED mix]
      else
        [DistSetParam P_DRYWET mix])
  ++ [DistSetParam P_HARD hard;
      DistSetParam P_TIGHT tight;
      DistSetParam P_RUETZ ruetz;
      DistSetParam P_BYPASS bypass;
      DistUpdate].

(** Lines 122-127: the calls on the gate, for the values the two catch
    values return. *)
Definition ng_dispatch (threshold release : float) : list Event :=
  [NgSetParam P_THRESHOLD threshold;
   NgSetParam P_RELEASE release;
   NgSetParam P_NG_BYPASS
     (if F32.ltb threshold F32.c0_05 then F32.one else F32.zero);
   NgUpdate].

(** Lines 135 and 137. *)
Definition satVal_of (saturation : float) : float :=
  fclamp (F32.div saturation F32.five) F32.zero F32.one.
Definition envVal_of (envelope : float) : float :=
  fclamp (F32.mul envelope F32.c2_5) F32.zero F32.one.

(** What one invocation of the callback leaves behind: the state, the
    output buffers [OUT_L], [OUT_R], and the calls it made. *)
Record Block : Type := {
  b_world : World;
  b_out : buf * buf;
  b_trace : list Event
}.

(** Modelled from the spec: [Utils::Copy(IN_L, IN_R, OUT_L, OUT_R, size)]
    is not part of the sources; the spec calls it "a verbatim stereo
    pass-through". *)
Definition Utils_Copy (inL inR : buf) : buf * buf := (inL, inR).

(** Lines 63-87: the statics once the knobs and the encoder are read. *)
Definition controls_step (hw : Controls) (st : Statics) : Statics :=
  let shift := shift_of hw st in
  let cv0 := knob_top hw in
  let cv1 := knob_bottom hw in
  let st1 := fold_left exec_grab (multiplex shift cv0 cv1) st in
  encoder_step shift (encInc_of hw) st1.

(** Lines 89-94: the resolved values. *)
Definition gain_of (hw : Controls) (st : Statics) : float :=
  let gain_cv := pitch_cv hw in
  fclamp (F32.add (cur_gain st) gain_cv) F32.zero F32.one.
Definition filter_of (st : Statics) : float :=
  fclamp (gv_Get (cv_filter st)) F32.zero F32.one.
Definition level_of (st : Statics) : float :=
  fclamp (cur_level st) F32.zero F32.one.
Definition mix_of (st : Statics) : float :=
  fclamp (gv_Get (cv_mix st)) F32.zero F32.one.

(** Lines 39-140.  [st] is the statics on entry and [st2] the statics
    after line 87; [dp] and [np] are what the two [Process] calls return:
    the engine and the contents of [OUT_L], [OUT_R]. *)
Definition AudioCallback (hw : Controls) (inL inR : buf) (w : World)
  : Block :=
  if negb (initialized w) then
    {| b_world := w; b_out := Utils_Copy inL inR; b_trace := [] |}
  else
    let st := statics w in
    let shift := shift_of hw st in
    let grabs := multiplex shift (knob_top hw) (knob_bottom hw) in
    let st2 := controls_step hw st in
    let dcalls :=
      dist_dispatch (gain_of hw st2) (filter_of st2) (level_of st2)
                    (mix_of st2) (hard_of hw) (tight_of hw) (ruetz_of hw)
                    (bypass_of hw) in
    let d1 := fold_left exec_dist dcalls (dist w) in
    let ncalls :=
      if first st || shift then
        ng_dispatch (gv_Get (ng_threshold st2)) (gv_Get (ng_release st2))
      else [] in
    let g1 := fold_left exec_ng ncalls (ng w) in
    let dp := dist_Process inL inR d1 in
    let OUT_L := fst (snd dp) in
    let OUT_R := snd (snd dp) in
    let np := ng_Process OUT_L OUT_R inL g1 in
    {| b_world :=
         {| initialized := initialized w;
            dist := fst dp;
            ng := fst np;
            envVal := envVal_of (ng_GetEnvelope (fst np));
            satVal := satVal_of (dist_GetSaturation (fst dp));
            statics :=
              {| first := false;
                 cur_gain := cur_gain st2; cur_level := cur_level st2;
                 cv_filter := cv_filter st2; cv_mix := cv_mix st2;
                 ng_threshold := ng_threshold st2;
                 ng_release := ng_release st2 |} |};
       b_out := snd np;
       b_trace := grabs ++ dcalls ++ ncalls
                  ++ [DistProcess inL inR; NgProcess OUT_L OUT_R inL] |}.

(** Consecutive invocations of the callback, oldest first: the block of
    each invocation. *)
Fixpoint run_blocks (ins : list (Controls * (buf * buf))) (w : World)
  : list Block :=
  match ins with
  | [] => []
  | (hw, (inL, inR)) :: rest =>
      let b := AudioCallback hw inL inR w in
      b :: run_blocks rest (b_world b)
  end.

(** The value of [shift] (line 63) in each of these invocations. *)
Fixpoint run_shifts (ins : list (Controls * (buf * buf))) (w : World)
  : list bool :=
  match ins with
  | [] => []
  | (hw, (inL, inR)) :: rest =>
      shift_of hw (statics w)
      :: run_shifts rest (b_world (AudioCallback hw inL inR w))
  end.

(** ** The status loop of [main] *)

(** [main]'s [static bool first] and [boottime] (lines 145 and 159). *)
Record MainState : Set := {
  main_first : bool;
  boottime : Z
}.

(** [System::GetNow() - boottime] on [uint32_t]: the difference wraps. *)
Definition elapsed_of (now boot : Z) : Z := (now - boot) mod 2 ^ 32.

(** One iteration of [while (1)] (lines 165-181), for the clock reading
    [now] where it reads the clock; the LED calls it makes, in order. *)
Definition main_iter (now : Z) (m : MainState) (w : World)
  : (MainState * World) * list LedCall :=
  if negb (initialized w) then
    if (elapsed_of now (boottime m) <? 1000)%Z then
      if main_first m then
        (({| main_first := false; boottime := boottime m |}, w),
         [SetLed LED_LEFT F32.one F32.zero F32.zero;
          SetLed LED_RIGHT F32.one F32.zero F32.one;
          UpdateLeds])
      else ((m, w), [])
    else
      ((m, {| initialized := true; dist := dist w; ng := ng w;
              envVal := envVal w; satVal := satVal w;
              statics := statics w |}), [])
  else
    ((m, w),
     [SetLed LED_LEFT F32.zero (envVal w) F32.zero;
      SetLed LED_RIGHT (satVal w) F32.zero F32.zero;
      UpdateLeds]).

(** The two execution contexts share [World].  The audio interrupt
    preempts the status loop; at the grain of whole loop iterations and
    whole callbacks the system advances by one [Tick] at a time. *)
Record Sys : Type := {
  sys_main : MainState;
  sys_world : World
}.

Inductive Tick : Set :=
| MainIter (now : Z)
| AudioBlock (hw : Controls) (inL inR : buf).

(** What a tick shows to the outside. *)
Inductive Obs : Set :=
| ObsLeds (calls : list LedCall)
| ObsAudio (out : buf * buf) (trace : list Event).

Definition sys_step (t : Tick) (s : Sys) : Sys * Obs :=
  match t with
  | MainIter now =>
      let '((m, w), leds) := main_iter now (sys_main s) (sys_world s) in
      ({| sys_main := m; sys_world := w |}, ObsLeds leds)
  | AudioBlock hw inL inR =>
      let b := AudioCallback hw inL inR (sys_world s) in
      ({| sys_main := sys_main s; sys_world := b_world b |},
       ObsAudio (b_out b) (b_trace b))
  end.

Fixpoint sys_run (ts : list Tick) (s : Sys) : Sys * list Obs :=
  match ts with
  | [] => (s, [])
  | t :: rest =>
      let '(s1, o) := sys_step t s in
      let '(s2, os) := sys_run rest s1 in
      (s2, o :: os)
  end.

(** The system as [main] starts it at line 161, the clock reading
    [boot]. *)
Definition sys_init (boot : Z) (d0 : D) (g0 : G) : Sys := {|
  sys_main := {| main_first := true; boottime := boot |};
  sys_world := world_init d0 g0
|}.

(** The boot state, read off [initialized]. *)
Definition boot_state (s : Sys) : BootState :=
  if initialized (sys_world s) then READY else BLINKING.

End Program.

(** ** Stand-ins for the collaborators

    Concrete instances of the three interfaces, used to run the callback
    on inputs. *)

Module Mock.

(** Modelled from the spec: a catch value as the spec's
    [ReconciledControl], [{heldValue, tracking}].  [Update] tracks [raw]
    when already tracking, and otherwise stays pinned until [raw] comes
    within [tol] of the held value.  The spec fixes neither the tolerance
    nor whether a fresh control tracks; here it does. *)
Record CatchValue : Set := {
  heldValue : float;
  tracking : bool
}.

Definition within (tol a b : float) : bool :=
  SFleb (F32.abs (F32.add a (F32.opp b))) tol.

Definition catch_Update (tol raw : float) (g : CatchValue) : CatchValue :=
  if tracking g || within tol raw (heldValue g)
  then {| heldValue := raw; tracking := true |}
  else g.

Definition catch_Lock (g : CatchValue) : CatchValue :=
  {| heldValue := heldValue g; tracking := false |}.

(** The tolerance of the stand-in. *)
Definition tol : float := Eval vm_compute in F32.lit 1 100.

#[export] Instance CatchValue_grab : GrabValue CatchValue := {|
  gv_make v := {| heldValue := v; tracking := true |};
  gv_Update := catch_Update tol;
  gv_Lock := catch_Lock;
  gv_Get := heldValue;
  gv_Get_make := fun v => eq_refl;
  gv_Get_Lock := fun g => eq_refl
|}.

(** An instrumented distortion: it stores the parameters pushed (latest
    first), counts [Update] calls, reports a fixed saturation and inverts
    the signal. *)
Record DistMock : Set := {
  dm_params : list (DistParam * float);
  dm_updates : nat;
  dm_saturation : float
}.

#[export] Instance DistMock_engine : PRatDist DistMock := {|
  dist_SetParam p v d :=
    {| dm_params := (p, v) :: dm_params d; dm_updates := dm_updates d;
       dm_saturation := dm_saturation d |};
  dist_Update d :=
    {| dm_params := dm_params d; dm_updates := S (dm_updates d);
       dm_saturation := dm_saturation d |};
  dist_Process inL inR d := (d, (map F32.opp inL, map F32.opp inR));
  dist_GetSaturation := dm_saturation
|}.

(** An instrumented gate: it stores the parameters pushed (latest first),
    counts [Update] calls, reports a fixed envelope and lets its first two
    input buffers through. *)
Record GateMock : Set := {
  gm_params : list (NgParam * float);
  gm_updates : nat;
  gm_envelope : float
}.

#[export] Instance GateMock_engine : NoiseGate GateMock := {|
  ng_SetParam p v g :=
    {| gm_params := (p, v) :: gm_params g; gm_updates := gm_updates g;
       gm_envelope := gm_envelope g |};
  ng_Update g :=
    {| gm_params := gm_params g; gm_updates := S (gm_updates g);
       gm_envelope := gm_envelope g |};
  ng_Process a1 a2 a3 g := (g, (a1, a2));
  ng_GetEnvelope := gm_envelope
|}.

Definition d0 (saturation : float) : DistMock :=
  {| dm_params := []; dm_updates := 0; dm_saturation := saturation |}.
Definition g0 (envelope : float) : GateMock :=
  {| gm_params := []; gm_updates := 0; gm_envelope := envelope |}.

(** The state of the first processed block: boot is over, nothing has been
    processed. *)
Definition ready (saturation envelope : float)
  : @World CatchValue DistMock GateMock :=
  {| initialized := true; dist := d0 saturation; ng := g0 envelope;
     envVal := F32.zero; satVal := F32.zero;
     statics := statics_init |}.

(** A snapshot with both knobs at [k], nothing pressed, no encoder
    movement, switches up, no gate. *)
Definition idle (k : float) : Controls :=
  {| knob_top := k; knob_bottom := k; enc_pressed := false;
     enc_increment := 0; pitch_cv := F32.zero;
     sw_left := POS_UP; sw_right := POS_UP; gate_in := false |}.

Definition with_pressed (b : bool) (c : Controls) : Controls :=
  {| knob_top := knob_top c; knob_bottom := knob_bottom c;
     enc_pressed := b; enc_increment := enc_increment c;
     pitch_cv := pitch_cv c; sw_left := sw_left c; sw_right := sw_right c;
     gate_in := gate_in c |}.

Definition with_increment (n : Z) (c : Controls) : Controls :=
  {| knob_top := knob_top c; knob_bottom := knob_bottom c;
     enc_pressed := enc_pressed c; enc_increment := n;
     pitch_cv := pitch_cv c; sw_left := sw_left c; sw_right := sw_right c;
     gate_in := gate_in c |}.

Definition with_switches (l r : Switch3) (c : Controls) : Controls :=
  {| knob_top := knob_top c; knob_bottom := knob_bottom c;
     enc_pressed := enc_pressed c; enc_increment := enc_increment c;
     pitch_cv := pitch_cv c; sw_left := l; sw_right := r;
     gate_in := gate_in c |}.

(** The state of the first processed block with the threshold control
    holding [thr]. *)
Definition ready_thr (thr : float) : @World CatchValue DistMock GateMock :=
  {| initialized := true; dist := d0 F32.five; ng := g0 F32.half;
     envVal := F32.zero; satVal := F32.zero;
     statics :=
       {| first := true; cur_gain := F32.half; cur_level := F32.half;
          cv_filter := gv_make F32.zero; cv_mix := gv_make F32.zero;
          ng_threshold := gv_make thr; ng_release := gv_make F32.half |} |}.

(** One block of input: the snapshot with a left buffer [1.0] and a right
    buffer [0.5]. *)
Definition block_in (c : Controls) : Controls * (buf * buf) :=
  (c, ([F32.one], [F32.half])).

(** Four blocks: encoder released, held, held, released. *)
Definition hold_ins : list (Controls * (buf * buf)) :=
  [block_in (idle F32.half);
   block_in (with_pressed true (idle F32.half));
   block_in (with_pressed true (idle F32.half));
   block_in (idle F32.half)].

(** The system started at clock reading 0. *)
Definition sys0 : @Sys CatchValue DistMock GateMock :=
  sys_init 0 (d0 F32.five) (g0 F32.half).

(** A loop iteration at 0 ms, a block during boot, a loop iteration at
    1000 ms. *)
Definition boot_ticks : list Tick :=
  [MainIter 0; AudioBlock (idle F32.half) [F32.one] [F32.half];
   MainIter 1000].

End Mock.

(** ** Readings of a trace and of a run *)

(** The calls of a trace on the catch values. *)
Definition grab_calls (t : list Event) : list Event :=
  filter (fun e => match e with
                   | GrabUpdate _ _ | GrabLock _ => true
                   | _ => false
                   end) t.

(** The [Process] calls of a trace. *)
Definition process_calls (t : list Event) : list Event :=
  filter (fun e => match e with
                   | DistProcess _ _ | NgProcess _ _ _ => true
                   | _ => false
                   end) t.

(** Whether a block re-parameterized the gate. *)
Definition reparameterized {GV D G : Type} (b : @Block GV D G) : bool :=
  negb (Nat.eqb (ng_updates (b_trace b)) 0).

(** The cadence in the spec's words: "exactly on block 0 and on every
    block where shift state differs from the previous block".  [prev] is
    the shift state of the previous block, if there is one. *)
Fixpoint on_transitions (prev : option bool) (shifts : list bool)
  : list bool :=
  match shifts with
  | [] => []
  | s :: rest =>
      match prev with
      | None => true
      | Some p => xorb p s
      end :: on_transitions (Some s) rest
  end.

(** The gate's [Process] in the spec's words:
    [Process(sidechainLeft, sidechainRight, inLeft, outLeft, outRight,
    blockSize)].  The buffer a recorded call binds to [sidechainLeft] and
    the one it binds to [inLeft]. *)
Definition spec_sidechainLeft (e : Event) : option buf :=
  match e with NgProcess a1 _ _ => Some a1 | _ => None end.
Definition spec_inLeft (e : Event) : option buf :=
  match e with NgProcess _ _ a3 => Some a3 | _ => None end.

(** The encoder step in the spec's words: "scaled by 1/16 per tick". *)
Definition spec_encInc (hw : Controls) : float :=
  F32.div (F32.of_int (enc_increment hw)) (F32.of_int 16).

(** What the spec's words ask of the gate call: the original left input
    is the buffer bound to [sidechainLeft]. *)
Definition gate_sidechain_as_specified (inL : buf) (t : list Event)
  : Prop :=
  exists e, In e t /\ spec_sidechainLeft e = Some inL.

(** The states the system reaches from its start. *)
Definition reachable {GV D G : Type}
  {grab : GrabValue GV} {distE : PRatDist D} {gateE : NoiseGate G}
  (boot : Z) (d0 : D) (g0 : G) (s : @Sys GV D G) : Prop :=
  exists ts : list Tick, s = fst (sys_run ts (sys_init boot d0 g0)).

(** ** Further readings of a trace and of a run *)

(** [0 <= x <= 1] in binary32; false for NaN. *)
Definition in_unit (x : float) : bool :=
  SFleb F32.zero x && SFleb x F32.one.

(** A value that neither [+ 0.f] nor [fclamp(., 0.f, 1.f)] changes. *)
Definition settled (y : float) : Prop :=
  F32.add y F32.zero = y /\ fclamp y F32.zero F32.one = y.

(** The calls of a trace on the distortion engine. *)
Definition dist_calls (t : list Event) : list Event :=
  filter (fun e => match e with
                   | DistSetParam _ _ | DistUpdate | DistProcess _ _ => true
                   | _ => false
                   end) t.

Definition is_DistSetParam (e : Event) : bool :=
  match e with DistSetParam _ _ => true | _ => false end.

(** The LED calls and the collaborator calls an observation holds. *)
Definition obs_leds (o : Obs) : list LedCall :=
  match o with ObsLeds calls => calls | ObsAudio _ _ => [] end.

Definition obs_trace (o : Obs) : list Event :=
  match o with ObsLeds _ => [] | ObsAudio _ t => t end.

(** The three channels a LED call writes. *)
Definition led_channels (c : LedCall) : list float :=
  match c with SetLed _ r g b => [r; g; b] | UpdateLeds => [] end.

(** The LED calls of lines 168-170. *)
Definition boot_pattern : list LedCall :=
  [SetLed LED_LEFT F32.one F32.zero F32.zero;
   SetLed LED_RIGHT F32.one F32.zero F32.one;
   UpdateLeds].

(** A run with, for each tick, the boot state it started in and what it
    showed. *)
Fixpoint sys_log {GV D G : Type}
  {grab : GrabValue GV} {distE : PRatDist D} {gateE : NoiseGate G}
  (ts : list Tick) (s : @Sys GV D G) : list (BootState * Obs) :=
  match ts with
  | [] => []
  | t :: rest =>
      (boot_state s, snd (sys_step t s)) :: sys_log rest (fst (sys_step t s))
  end.

(** The LED calls made by ticks that started in BLINKING. *)
Definition boot_leds (log : list (BootState * Obs)) : list LedCall :=
  flat_map (fun so => match fst so with
                      | BLINKING => obs_leds (snd so)
                      | READY => []
                      end) log.

(** The snapshots of a run of blocks. *)
Definition pressed_of (i : Controls * (buf * buf)) : bool :=
  enc_pressed (fst i).

(** ** Properties of the arithmetic *)

Lemma digits2_pos_bounds (m : positive) :
  (2 ^ (Z.pos (digits2_pos m) - 1) <= Z.pos m < 2 ^ Z.pos (digits2_pos m))%Z.
Proof.
  induction m as [m IH|m IH|]; cbn [digits2_pos].
  - rewrite Pos2Z.inj_succ, (Pos2Z.inj_xI m).
    replace (Z.succ (Z.pos (digits2_pos m)) - 1)%Z
      with (Z.succ (Z.pos (digits2_pos m) - 1))%Z by lia.
    rewrite !Z.pow_succ_r by lia.
    generalize dependent (2 ^ (Z.pos (digits2_pos m) - 1))%Z.
    generalize dependent (2 ^ Z.pos (digits2_pos m))%Z. intros; lia.
  - rewrite Pos2Z.inj_succ, (Pos2Z.inj_xO m).
    replace (Z.succ (Z.pos (digits2_pos m)) - 1)%Z
      with (Z.succ (Z.pos (digits2_pos m) - 1))%Z by lia.
    rewrite !Z.pow_succ_r by lia.
    generalize dependent (2 ^ (Z.pos (digits2_pos m) - 1))%Z.
    generalize dependent (2 ^ Z.pos (digits2_pos m))%Z. intros; lia.
  - cbn. lia.
Qed.

(** A well-formed finite binary32 has its exponent in [-149, 104] and a
    mantissa below 2^24, of full width unless the exponent is the least. *)
Lemma valid_finite_bounds (s : bool) (m : positive) (e : Z) :
  F32.valid (S754_finite s m e) = true ->
  (-149 <= e <= 104)%Z
  /\ (Z.pos m < 2 ^ 24)%Z
  /\ (-149 < e -> 2 ^ 23 <= Z.pos m)%Z.
Proof.
  unfold F32.valid, F32.prec, F32.emax, valid_binary, bounded,
    canonical_mantissa, fexp, emin.
  intros H. apply andb_true_iff in H. destruct H as [Hc Hb].
  apply Z.eqb_eq in Hc. apply Z.leb_le in Hb.
  pose proof (digits2_pos_bounds m) as [Hlo Hhi].
  set (d := Z.pos (digits2_pos m)) in *.
  assert (Hd : (0 < d)%Z) by (unfold d; lia).
  split; [lia|]. split.
  - assert (d <= 24)%Z by lia.
    apply Z.lt_le_trans with (1 := Hhi). apply Z.pow_le_mono_r; lia.
  - intros He. assert (H24 : d = 24%Z) by lia. subst d.
    replace (2 ^ 23)%Z with (2 ^ (Z.pos (digits2_pos m) - 1))%Z
      by (rewrite H24; reflexivity).
    exact Hlo.
Qed.

(** On well-formed values, [thr < 0.05f] says that the number [thr]
    denotes is below 1/20: 0.05f is the least binary32 that is not. *)
Lemma below_cutoff_iff (thr : float) (q : Q) :
  F32.valid thr = true ->
  F32.to_Q thr = Some q ->
  F32.ltb thr F32.c0_05 = true <-> Qlt q (Qmake 1 20).
Proof.
  intros Hv Hq. destruct thr as [s|s| |s m e]; try discriminate.
  - injection Hq as <-. cbn. split; [reflexivity|]. intros _.
    destruct s; reflexivity.
  - destruct (valid_finite_bounds s m e Hv) as (He & Hm & Hn).
    unfold F32.to_Q in Hq.
    apply (f_equal (fun o => match o with Some x => x | None => q end))
      in Hq.
    cbv beta iota in Hq. subst q.
    unfold F32.ltb, SFltb, F32.c0_05. cbn [SFcompare].
    destruct s.
    + split; [intros _|reflexivity].
      destruct (Z.leb_spec 0 e);
        unfold Qlt, Qopp, inject_Z, Qnum, Qden; cbv beta iota.
      * assert (0 < Z.pos m * 2 ^ e)%Z
          by (apply Z.mul_pos_pos; [lia | apply Z.pow_pos_nonneg; lia]).
        lia.
      * lia.
    + destruct (Z.compare_spec e (-28)) as [->|Hlt|Hgt].
      * change (PosDef.Pos.compare_cont Eq m 13421773)
          with (Pos.compare m 13421773).
        cbn [Z.leb Z.compare]. unfold Qlt, Qnum, Qden. cbv beta iota.
        change (Z.pos (Z.to_pos (2 ^ (- -28)))) with 268435456%Z.
        destruct (Pos.compare_spec m 13421773) as [->|Hc|Hc];
          split; try discriminate; try reflexivity; lia.
      * split; [intros _|reflexivity].
        destruct (Z.leb_spec 0 e); [lia|].
        unfold Qlt, Qnum, Qden. cbv beta iota.
        rewrite Z2Pos.id by (apply Z.pow_pos_nonneg; lia).
        assert (2 ^ 29 <= 2 ^ (- e))%Z by (apply Z.pow_le_mono_r; lia).
        change (2 ^ 29)%Z with 536870912%Z in *.
        change (2 ^ 24)%Z with 16777216%Z in *. lia.
      * split; [discriminate|]. intros Hq. exfalso.
        assert (Hm23 : (2 ^ 23 <= Z.pos m)%Z) by (apply Hn; lia).
        change (2 ^ 23)%Z with 8388608%Z in *.
        destruct (Z.leb_spec 0 e).
        -- unfold Qlt, inject_Z, Qnum, Qden in Hq. cbv beta iota in Hq.
           assert (0 < Z.pos m * 2 ^ e)%Z
             by (apply Z.mul_pos_pos; [lia | apply Z.pow_pos_nonneg; lia]).
           lia.
        -- unfold Qlt, Qnum, Qden in Hq. cbv beta iota in Hq.
           rewrite Z2Pos.id in Hq by (apply Z.pow_pos_nonneg; lia).
           assert (2 ^ (- e) <= 2 ^ 27)%Z by (apply Z.pow_le_mono_r; lia).
           change (2 ^ 27)%Z with 134217728%Z in *. lia.
Qed.

Lemma ltb_leb (a b : float) : SFltb a b = true -> SFleb a b = true.
Proof.
  unfold SFltb, SFleb. destruct (SFcompare a b) as [[| |]|]; congruence.
Qed.

(** [fclamp x 0 1] lies between 0 and 1 for every [x], NaN included. *)
Lemma fclamp_unit_range (x : float) :
  SFleb F32.zero (fclamp x F32.zero F32.one) = true
  /\ SFleb (fclamp x F32.zero F32.one) F32.one = true.
Proof.
  unfold fclamp, fmin, fmax, F32.gtb, F32.ltb.
  destruct (SFltb F32.zero x) eqn:E0.
  - destruct (SFltb x F32.one) eqn:E1.
    + split; apply ltb_leb; assumption.
    + split; reflexivity.
  - split; reflexivity.
Qed.

(** An encoder movement of fewer than 16 steps gives no increment. *)
Lemma encInc_of_small (hw : Controls) :
  (Z.abs (enc_increment hw) < 16)%Z -> encInc_of hw = F32.zero.
Proof.
  intros H. unfold encInc_of.
  replace (Z.quot (enc_increment hw) 16) with 0%Z; [reflexivity|].
  symmetry. apply Z.quot_small_iff; lia.
Qed.

(** ** Properties of the audio callback *)

Section Properties.

Context {GV D G : Type}.
Context {grab : GrabValue GV} {distE : PRatDist D} {gateE : NoiseGate G}.

Implicit Types (w : @World GV D G) (st : @Statics GV) (hw : Controls).

Lemma ng_config_app (t u : list Event) :
  ng_config (t ++ u) = ng_config t ++ ng_config u.
Proof. apply filter_app. Qed.

Lemma ng_config_multiplex (shift : bool) (cv0 cv1 : float) :
  ng_config (multiplex shift cv0 cv1) = [].
Proof. destruct shift; reflexivity. Qed.

Lemma ng_config_dist_dispatch (a b c d e f g h : float) :
  ng_config (dist_dispatch a b c d e f g h) = [].
Proof. unfold dist_dispatch. destruct (F32.geb e F32.half); reflexivity. Qed.

Lemma ng_config_ng_dispatch (thr rel : float) :
  ng_config (ng_dispatch thr rel) = ng_dispatch thr rel.
Proof. reflexivity. Qed.

(** The statics a processed block leaves keep the catch values of line 87
    and clear [first]. *)
Lemma statics_after_block hw (inL inR : buf) w :
  initialized w = true ->
  statics (b_world (AudioCallback hw inL inR w))
  = {| first := false;
       cur_gain := cur_gain (controls_step hw (statics w));
       cur_level := cur_level (controls_step hw (statics w));
       cv_filter := cv_filter (controls_step hw (statics w));
       cv_mix := cv_mix (controls_step hw (statics w));
       ng_threshold := ng_threshold (controls_step hw (statics w));
       ng_release := ng_release (controls_step hw (statics w)) |}.
Proof. intros Hi. unfold AudioCallback. rewrite Hi. reflexivity. Qed.

Lemma initialized_after_block hw (inL inR : buf) w :
  initialized (b_world (AudioCallback hw inL inR w)) = initialized w.
Proof.
  unfold AudioCallback. destruct (initialized w) eqn:Hi; simpl; auto.
Qed.

(** The gate calls of one processed block. *)
Lemma ng_config_block hw (inL inR : buf) w :
  initialized w = true ->
  ng_config (b_trace (AudioCallback hw inL inR w))
  = if first (statics w) || shift_of hw (statics w)
    then ng_dispatch
           (gv_Get (ng_threshold (statics (b_world (AudioCallback hw inL inR w)))))
           (gv_Get (ng_release (statics (b_world (AudioCallback hw inL inR w)))))
    else [].
Proof.
  intros Hi. rewrite (statics_after_block _ _ _ _ Hi).
  unfold AudioCallback. rewrite Hi. cbn [negb b_trace].
  rewrite !ng_config_app, ng_config_multiplex, ng_config_dist_dispatch.
  cbn [app ng_threshold ng_release].
  destruct (first (statics w) || shift_of hw (statics w)).
  - rewrite ng_config_ng_dispatch, app_nil_r. reflexivity.
  - reflexivity.
Qed.

Lemma ng_updates_config (t : list Event) :
  ng_updates t = ng_updates (ng_config t).
Proof.
  unfold ng_updates, ng_config. induction t as [|e t IH]; [reflexivity|].
  destruct e; simpl; auto.
Qed.

(** In a run that starts in a processed state, block [k] dispatches to the
    gate when it is block 0 of a state with [first] set, or when [shift]
    holds in it. *)
Lemma ng_config_run (ins : list (Controls * (buf * buf))) :
  forall w (k : nat) (b : @Block GV D G) (sh : bool),
  initialized w = true ->
  nth_error (run_blocks ins w) k = Some b ->
  nth_error (run_shifts ins w) k = Some sh ->
  ng_config (b_trace b)
  = if (Nat.eqb k 0 && first (statics w)) || sh
    then ng_dispatch (gv_Get (ng_threshold (statics (b_world b))))
                     (gv_Get (ng_release (statics (b_world b))))
    else [].
Proof.
  induction ins as [|[hw [inL inR]] rest IH]; intros w k b sh Hi Hb Hs.
  - destruct k; discriminate.
  - destruct k as [|k]; cbn [run_blocks run_shifts nth_error] in Hb, Hs.
    + injection Hb as <-. injection Hs as <-.
      rewrite ng_config_block by assumption. reflexivity.
    + rewrite (IH (b_world (AudioCallback hw inL inR w)) k b sh);
        try assumption.
      * rewrite (statics_after_block _ _ _ _ Hi). cbn [first].
        rewrite andb_false_r. reflexivity.
      * rewrite initialized_after_block. assumption.
Qed.

(** C1, as amended.  In a run of the callback from the first processed
    block, the gate is re-parameterized (threshold, release and bypass
    pushed, then [Update]) on block 0 and on every block in which [shift]
    holds, once each, and on no other block. *)
Theorem gate_reparam_cadence
  (ins : list (Controls * (buf * buf))) w (k : nat)
  (b : @Block GV D G) (sh : bool) :
  initialized w = true ->
  first (statics w) = true ->
  nth_error (run_blocks ins w) k = Some b ->
  nth_error (run_shifts ins w) k = Some sh ->
  ng_config (b_trace b)
  = (if Nat.eqb k 0 || sh
     then ng_dispatch (gv_Get (ng_threshold (statics (b_world b))))
                      (gv_Get (ng_release (statics (b_world b))))
     else [])
  /\ ng_updates (b_trace b) = (if Nat.eqb k 0 || sh then 1 else 0)%nat
  /\ reparameterized b = (Nat.eqb k 0 || sh).
Proof.
  intros Hi Hf Hb Hs.
  pose proof (ng_config_run ins w k b sh Hi Hb Hs) as Hc.
  rewrite Hf, andb_true_r in Hc.
  split; [exact Hc|].
  unfold reparameterized. rewrite ng_updates_config, Hc.
  destruct (Nat.eqb k 0 || sh); split; reflexivity.
Qed.

(** *** Calls on the distortion engine *)

Lemma dist_pushed_app (p : DistParam) (t u : list Event) :
  dist_pushed p (t ++ u) = dist_pushed p t ++ dist_pushed p u.
Proof. apply flat_map_app. Qed.

(** Only the dispatch of lines 104-119 pushes distortion parameters. *)
Lemma dist_pushed_block (p : DistParam) hw (inL inR : buf) w :
  initialized w = true ->
  dist_pushed p (b_trace (AudioCallback hw inL inR w))
  = dist_pushed p
      (dist_dispatch (gain_of hw (controls_step hw (statics w)))
                     (filter_of (controls_step hw (statics w)))
                     (level_of (controls_step hw (statics w)))
                     (mix_of (controls_step hw (statics w)))
                     (hard_of hw) (tight_of hw) (ruetz_of hw)
                     (bypass_of hw)).
Proof.
  intros Hi. unfold AudioCallback. rewrite Hi. cbn [negb b_trace].
  rewrite !dist_pushed_app.
  replace (dist_pushed p (multiplex _ _ _)) with (@nil float)
    by (destruct (shift_of hw (statics w)); reflexivity).
  match goal with
  | |- context [dist_pushed p (if ?c then ng_dispatch ?a ?b else [])] =>
      replace (dist_pushed p (if c then ng_dispatch a b else []))
        with (@nil float) by (destruct c; reflexivity)
  end.
  cbn [app]. apply app_nil_r.
Qed.

Lemma mix_of_after_block hw (inL inR : buf) w :
  initialized w = true ->
  mix_of (statics (b_world (AudioCallback hw inL inR w)))
  = mix_of (controls_step hw (statics w)).
Proof. intros Hi. rewrite (statics_after_block _ _ _ _ Hi). reflexivity. Qed.

Lemma Switch3_eqb_eq (a b : Switch3) : Switch3_eqb a b = true <-> a = b.
Proof. destruct a, b; simpl; split; congruence. Qed.

(** C5.  On every processed block the four mode flags pushed to the
    distortion engine follow the truth table: [hard] is 1 when the clip
    switch is in the centre or the gate input is active and 0 otherwise;
    [bypass] is 1 when the clip switch is down and 0 otherwise; [ruetz] is
    1 when the mod switch is in the centre and 0 otherwise; [tight] is 1
    when the mod switch is down and 0 otherwise.  Each flag is pushed
    once. *)
Theorem mode_flags_truth_table hw (inL inR : buf) w :
  initialized w = true ->
  (sw_left hw = POS_CENTER \/ gate_in hw = true ->
   dist_pushed P_HARD (b_trace (AudioCallback hw inL inR w)) = [F32.one])
  /\ (~ (sw_left hw = POS_CENTER \/ gate_in hw = true) ->
      dist_pushed P_HARD (b_trace (AudioCallback hw inL inR w)) = [F32.zero])
  /\ (sw_left hw = POS_DOWN ->
      dist_pushed P_BYPASS (b_trace (AudioCallback hw inL inR w)) = [F32.one])
  /\ (sw_left hw <> POS_DOWN ->
      dist_pushed P_BYPASS (b_trace (AudioCallback hw inL inR w)) = [F32.zero])
  /\ (sw_right hw = POS_CENTER ->
      dist_pushed P_RUETZ (b_trace (AudioCallback hw inL inR w)) = [F32.one])
  /\ (sw_right hw <> POS_CENTER ->
      dist_pushed P_RUETZ (b_trace (AudioCallback hw inL inR w)) = [F32.zero])
  /\ (sw_right hw = POS_DOWN ->
      dist_pushed P_TIGHT (b_trace (AudioCallback hw inL inR w)) = [F32.one])
  /\ (sw_right hw <> POS_DOWN ->
      dist_pushed P_TIGHT (b_trace (AudioCallback hw inL inR w)) = [F32.zero]).
Proof.
  intros Hi. rewrite !(dist_pushed_block _ _ _ _ _ Hi).
  unfold dist_dispatch, hard_of, bypass_of, ruetz_of, tight_of.
  destruct (sw_left hw), (sw_right hw), (gate_in hw);
    cbn; repeat split; intros; try reflexivity; intuition congruence.
Qed.

(** C6.  On every processed block, when the resolved [hard] is at least
    0.5 the engine's [dryWet] is set to 1 and its [siLed] to the resolved
    mix; otherwise [dryWet] is set to the resolved mix and no value is
    pushed for [siLed] in that block, so the value last pushed for it
    stands. *)
Theorem mix_routing hw (inL inR : buf) w :
  initialized w = true ->
  dist_pushed P_HARD (b_trace (AudioCallback hw inL inR w)) = [hard_of hw]
  /\ (F32.geb (hard_of hw) F32.half = true ->
      dist_pushed P_DRYWET (b_trace (AudioCallback hw inL inR w))
      = [F32.one]
      /\ dist_pushed P_SILED (b_trace (AudioCallback hw inL inR w))
         = [mix_of (statics (b_world (AudioCallback hw inL inR w)))])
  /\ (F32.geb (hard_of hw) F32.half = false ->
      dist_pushed P_DRYWET (b_trace (AudioCallback hw inL inR w))
      = [mix_of (statics (b_world (AudioCallback hw inL inR w)))]
      /\ dist_pushed P_SILED (b_trace (AudioCallback hw inL inR w)) = []
      /\ forall (history : list Event) (default : float),
           last (dist_pushed P_SILED
                   (history ++ b_trace (AudioCallback hw inL inR w)))
                default
           = last (dist_pushed P_SILED history) default).
Proof.
  intros Hi.
  rewrite (mix_of_after_block _ _ _ _ Hi).
  assert (Hs : forall history,
             dist_pushed P_SILED
               (history ++ b_trace (AudioCallback hw inL inR w))
             = dist_pushed P_SILED history
               ++ dist_pushed P_SILED (b_trace (AudioCallback hw inL inR w)))
    by (intros; apply dist_pushed_app).
  rewrite !(dist_pushed_block _ _ _ _ _ Hi) in *.
  unfold dist_dispatch.
  split; [destruct (F32.geb (hard_of hw) F32.half); reflexivity|].
  split; intros Hg; rewrite Hg in *; cbn.
  - split; reflexivity.
  - split; [reflexivity|]. split; [reflexivity|].
    intros history default. rewrite Hs. unfold dist_dispatch. rewrite Hg.
    cbn. rewrite app_nil_r. reflexivity.
Qed.

(** *** Knob multiplexer *)

Lemma grab_calls_app (t u : list Event) :
  grab_calls (t ++ u) = grab_calls t ++ grab_calls u.
Proof. apply filter_app. Qed.

(** Only lines 68-80 call the catch values. *)
Lemma grab_calls_block hw (inL inR : buf) w :
  initialized w = true ->
  grab_calls (b_trace (AudioCallback hw inL inR w))
  = multiplex (shift_of hw (statics w)) (knob_top hw) (knob_bottom hw).
Proof.
  intros Hi. unfold AudioCallback. rewrite Hi. cbn [negb b_trace].
  rewrite !grab_calls_app.
  replace (grab_calls (dist_dispatch _ _ _ _ _ _ _ _)) with (@nil Event)
    by (unfold dist_dispatch;
        destruct (F32.geb (hard_of hw) F32.half); reflexivity).
  match goal with
  | |- context [grab_calls (if ?c then ng_dispatch ?a ?b else [])] =>
      replace (grab_calls (if c then ng_dispatch a b else []))
        with (@nil Event) by (destruct c; reflexivity)
  end.
  cbn [app grab_calls filter]. rewrite app_nil_r.
  destruct (shift_of hw (statics w)); reflexivity.
Qed.

(** C7.  On every processed block one pair of catch values is updated
    from the knobs and the other pair is locked, each catch value called
    once: without shift, the top knob updates the filter control and the
    bottom knob the mix control while the threshold and release controls
    are locked; with shift, the top knob updates the threshold control and
    the bottom knob the release control while the filter and mix controls
    are locked. *)
Theorem knob_multiplexer hw (inL inR : buf) w :
  initialized w = true ->
  (shift_of hw (statics w) = false ->
   grab_calls (b_trace (AudioCallback hw inL inR w))
   = [GrabUpdate CV_FILTER (knob_top hw); GrabUpdate CV_MIX (knob_bottom hw);
      GrabLock NG_THRESHOLD; GrabLock NG_RELEASE]
   /\ cv_filter (statics (b_world (AudioCallback hw inL inR w)))
      = gv_Update (knob_top hw) (cv_filter (statics w))
   /\ cv_mix (statics (b_world (AudioCallback hw inL inR w)))
      = gv_Update (knob_bottom hw) (cv_mix (statics w))
   /\ ng_threshold (statics (b_world (AudioCallback hw inL inR w)))
      = gv_Lock (ng_threshold (statics w))
   /\ ng_release (statics (b_world (AudioCallback hw inL inR w)))
      = gv_Lock (ng_release (statics w)))
  /\ (shift_of hw (statics w) = true ->
      grab_calls (b_trace (AudioCallback hw inL inR w))
      = [GrabLock CV_FILTER; GrabLock CV_MIX;
         GrabUpdate NG_THRESHOLD (knob_top hw);
         GrabUpdate NG_RELEASE (knob_bottom hw)]
      /\ cv_filter (statics (b_world (AudioCallback hw inL inR w)))
         = gv_Lock (cv_filter (statics w))
      /\ cv_mix (statics (b_world (AudioCallback hw inL inR w)))
         = gv_Lock (cv_mix (statics w))
      /\ ng_threshold (statics (b_world (AudioCallback hw inL inR w)))
         = gv_Update (knob_top hw) (ng_threshold (statics w))
      /\ ng_release (statics (b_world (AudioCallback hw inL inR w)))
         = gv_Update (knob_bottom hw) (ng_release (statics w))).
Proof.
  intros Hi.
  rewrite (grab_calls_block _ _ _ _ Hi), (statics_after_block _ _ _ _ Hi).
  unfold controls_step.
  split; intros Hs; rewrite Hs; cbn; repeat split; reflexivity.
Qed.

(** *** Telemetry *)

(** C9.  After each processed block the exported saturation level is the
    engine's saturation divided by 5 and clamped to [0,1], and the exported
    envelope level is the gate's envelope times 2.5 and clamped to [0,1];
    a saturation of 5.0 gives 1.0 and an envelope of 0.5 gives 1.0. *)
Theorem telemetry_scaling hw (inL inR : buf) w :
  initialized w = true ->
  satVal (b_world (AudioCallback hw inL inR w))
  = fclamp (F32.div
              (dist_GetSaturation (dist (b_world (AudioCallback hw inL inR w))))
              F32.five)
           F32.zero F32.one
  /\ envVal (b_world (AudioCallback hw inL inR w))
     = fclamp (F32.mul
                 (ng_GetEnvelope (ng (b_world (AudioCallback hw inL inR w))))
                 F32.c2_5)
              F32.zero F32.one
  /\ (dist_GetSaturation (dist (b_world (AudioCallback hw inL inR w)))
      = F32.five ->
      satVal (b_world (AudioCallback hw inL inR w)) = F32.one)
  /\ (ng_GetEnvelope (ng (b_world (AudioCallback hw inL inR w)))
      = F32.half ->
      envVal (b_world (AudioCallback hw inL inR w)) = F32.one).
Proof.
  intros Hi. unfold AudioCallback. rewrite Hi.
  cbn [negb b_world satVal envVal dist ng].
  unfold satVal_of, envVal_of.
  repeat split; intros ->; reflexivity.
Qed.

(** *** Gate dispatch *)

Lemma ng_pushed_config (p : NgParam) (t : list Event) :
  ng_pushed p t = ng_pushed p (ng_config t).
Proof.
  unfold ng_pushed, ng_config. induction t as [|e t IH]; [reflexivity|].
  destruct e; cbn; try exact IH.
  cbn in IH. rewrite IH. reflexivity.
Qed.

Lemma ng_pushed_threshold_dispatch (thr rel : float) :
  ng_pushed P_THRESHOLD (ng_dispatch thr rel) = [thr].
Proof. reflexivity. Qed.

Lemma ng_pushed_bypass_dispatch (thr rel : float) :
  ng_pushed P_NG_BYPASS (ng_dispatch thr rel)
  = [if F32.ltb thr F32.c0_05 then F32.one else F32.zero].
Proof. reflexivity. Qed.

(** C4.  Whenever a block dispatches to the gate, the bypass value it
    pushes is 1 when the threshold it pushes (what the threshold control
    returns) is below the cutoff, [threshold < 0.05f], and 0 otherwise.
    For a well-formed threshold that is so exactly when the number it
    denotes is below 1/20.  A threshold of 0.04f gives 1 and a threshold
    of 0.06f gives 0. *)
Theorem gate_bypass_cutoff hw (inL inR : buf) w :
  initialized w = true ->
  ng_config (b_trace (AudioCallback hw inL inR w)) <> [] ->
  ng_pushed P_THRESHOLD (b_trace (AudioCallback hw inL inR w))
  = [gv_Get (ng_threshold (statics (b_world (AudioCallback hw inL inR w))))]
  /\ ng_pushed P_NG_BYPASS (b_trace (AudioCallback hw inL inR w))
     = [if F32.ltb
             (gv_Get (ng_threshold
                        (statics (b_world (AudioCallback hw inL inR w)))))
             F32.c0_05
        then F32.one else F32.zero]
  /\ (forall q : Q,
        F32.valid
          (gv_Get (ng_threshold
                     (statics (b_world (AudioCallback hw inL inR w)))))
        = true ->
        F32.to_Q
          (gv_Get (ng_threshold
                     (statics (b_world (AudioCallback hw inL inR w)))))
        = Some q ->
        (Qlt q (Qmake 1 20) ->
         ng_pushed P_NG_BYPASS (b_trace (AudioCallback hw inL inR w))
         = [F32.one])
        /\ (~ Qlt q (Qmake 1 20) ->
            ng_pushed P_NG_BYPASS (b_trace (AudioCallback hw inL inR w))
            = [F32.zero]))
  /\ (gv_Get (ng_threshold (statics (b_world (AudioCallback hw inL inR w))))
      = F32.lit 4 100 ->
      ng_pushed P_NG_BYPASS (b_trace (AudioCallback hw inL inR w))
      = [F32.one])
  /\ (gv_Get (ng_threshold (statics (b_world (AudioCallback hw inL inR w))))
      = F32.lit 6 100 ->
      ng_pushed P_NG_BYPASS (b_trace (AudioCallback hw inL inR w))
      = [F32.zero]).
Proof.
  intros Hi Hne.
  rewrite (ng_pushed_config P_THRESHOLD), (ng_pushed_config P_NG_BYPASS).
  rewrite (ng_config_block _ _ _ _ Hi) in *.
  destruct (first (statics w) || shift_of hw (statics w));
    [|contradiction].
  set (thr := gv_Get (ng_threshold
                        (statics (b_world (AudioCallback hw inL inR w))))).
  rewrite ng_pushed_threshold_dispatch, !ng_pushed_bypass_dispatch.
  split; [reflexivity|]. split; [reflexivity|]. split.
  - intros q Hv Hq. pose proof (below_cutoff_iff thr q Hv Hq) as Hiff.
    destruct (F32.ltb thr F32.c0_05); split; intros Hlt.
    + reflexivity.
    + exfalso. apply Hlt, Hiff. reflexivity.
    + apply Hiff in Hlt. discriminate.
    + reflexivity.
  - split; intros ->; reflexivity.
Qed.

(** *** Processing *)

Lemma exec_dist_multiplex (shift : bool) (cv0 cv1 : float) (d : D) :
  fold_left exec_dist (multiplex shift cv0 cv1) d = d.
Proof. destruct shift; reflexivity. Qed.

Lemma exec_ng_multiplex (shift : bool) (cv0 cv1 : float) (g : G) :
  fold_left exec_ng (multiplex shift cv0 cv1) g = g.
Proof. destruct shift; reflexivity. Qed.

Lemma exec_ng_dist_dispatch (a b c d e f g' h : float) (g : G) :
  fold_left exec_ng (dist_dispatch a b c d e f g' h) g = g.
Proof. unfold dist_dispatch. destruct (F32.geb e F32.half); reflexivity. Qed.

Lemma exec_dist_ng_calls (c : bool) (thr rel : float) (d : D) :
  fold_left exec_dist (if c then ng_dispatch thr rel else []) d = d.
Proof. destruct c; reflexivity. Qed.

(** The engines as the dispatch of a processed block leaves them, read
    off the block's trace. *)
Lemma dispatched_engines hw (inL inR : buf) w :
  initialized w = true ->
  fold_left exec_dist (b_trace (AudioCallback hw inL inR w)) (dist w)
  = fold_left exec_dist
      (dist_dispatch (gain_of hw (controls_step hw (statics w)))
                     (filter_of (controls_step hw (statics w)))
                     (level_of (controls_step hw (statics w)))
                     (mix_of (controls_step hw (statics w)))
                     (hard_of hw) (tight_of hw) (ruetz_of hw)
                     (bypass_of hw))
      (dist w)
  /\ fold_left exec_ng (b_trace (AudioCallback hw inL inR w)) (ng w)
     = fold_left exec_ng
         (if first (statics w) || shift_of hw (statics w)
          then ng_dispatch
                 (gv_Get (ng_threshold (controls_step hw (statics w))))
                 (gv_Get (ng_release (controls_step hw (statics w))))
          else [])
         (ng w).
Proof.
  intros Hi. unfold AudioCallback. rewrite Hi. cbn [negb b_trace].
  rewrite !fold_left_app.
  rewrite exec_dist_multiplex, exec_ng_multiplex, exec_ng_dist_dispatch,
    exec_dist_ng_calls.
  split; reflexivity.
Qed.

(** C2, as amended.  On every processed block, after the dispatch, the
    distortion engine processes the stereo input block, and then the gate
    processes what the distortion wrote to the output buffers, which it
    receives as its first and second argument, with the original left
    input as its third argument (the signal of "noise gate uses left input
    for volume detection"); the block's output is what the gate writes.
    There is no other [Process] call in the block. *)
Theorem gate_processes_dist_output hw (inL inR : buf) w :
  initialized w = true ->
  exists OUT_L OUT_R : buf,
    snd (dist_Process inL inR
           (fold_left exec_dist (b_trace (AudioCallback hw inL inR w))
                      (dist w)))
    = (OUT_L, OUT_R)
    /\ (exists dispatch : list Event,
           b_trace (AudioCallback hw inL inR w)
           = dispatch ++ [DistProcess inL inR; NgProcess OUT_L OUT_R inL]
           /\ process_calls dispatch = [])
    /\ process_calls (b_trace (AudioCallback hw inL inR w))
       = [DistProcess inL inR; NgProcess OUT_L OUT_R inL]
    /\ b_out (AudioCallback hw inL inR w)
       = snd (ng_Process OUT_L OUT_R inL
                (fold_left exec_ng (b_trace (AudioCallback hw inL inR w))
                           (ng w))).
Proof.
  intros Hi.
  destruct (dispatched_engines hw inL inR w Hi) as [Hd Hg].
  rewrite Hd, Hg. clear Hd Hg.
  unfold AudioCallback. rewrite Hi. cbn [negb b_trace b_out].
  set (st2 := controls_step hw (statics w)).
  set (dcalls := dist_dispatch _ _ _ _ _ _ _ _).
  set (ncalls := if first (statics w) || shift_of hw (statics w)
                 then ng_dispatch _ _ else []).
  set (dp := dist_Process inL inR (fold_left exec_dist dcalls (dist w))).
  exists (fst (snd dp)), (snd (snd dp)).
  assert (Hm : process_calls
                 (multiplex (shift_of hw (statics w)) (knob_top hw)
                            (knob_bottom hw)) = [])
    by (destruct (shift_of hw (statics w)); reflexivity).
  assert (Hdc : process_calls dcalls = [])
    by (unfold dcalls, dist_dispatch;
        destruct (F32.geb (hard_of hw) F32.half); reflexivity).
  assert (Hnc : process_calls ncalls = [])
    by (unfold ncalls;
        destruct (first (statics w) || shift_of hw (statics w));
        reflexivity).
  split; [destruct (snd dp); reflexivity|].
  split.
  - exists (multiplex (shift_of hw (statics w)) (knob_top hw)
                      (knob_bottom hw) ++ dcalls ++ ncalls).
    split.
    + rewrite <- !app_assoc. reflexivity.
    + unfold process_calls in *. rewrite !filter_app, Hm, Hdc, Hnc.
      reflexivity.
  - split; [|reflexivity].
    unfold process_calls in *. rewrite !filter_app, Hm, Hdc, Hnc.
    reflexivity.
Qed.

End Properties.

(** ** Properties of the boot sequence *)

Section Boot.

Context {GV D G : Type}.
Context {grab : GrabValue GV} {distE : PRatDist D} {gateE : NoiseGate G}.

Implicit Types (s : @Sys GV D G) (w : @World GV D G) (t : Tick).

Lemma boot_state_READY s :
  boot_state s = READY <-> initialized (sys_world s) = true.
Proof.
  unfold boot_state. destruct (initialized (sys_world s)); split; congruence.
Qed.

Lemma boot_state_BLINKING s :
  boot_state s = BLINKING <-> initialized (sys_world s) = false.
Proof.
  unfold boot_state. destruct (initialized (sys_world s)); split; congruence.
Qed.

(** A loop iteration sets [initialized] when the window is over and
    leaves it alone otherwise. *)
Lemma initialized_after_main (now : Z) s :
  initialized (sys_world (fst (sys_step (MainIter now) s)))
  = initialized (sys_world s)
    || (1000 <=? elapsed_of now (boottime (sys_main s)))%Z.
Proof.
  unfold sys_step, main_iter.
  destruct (initialized (sys_world s)) eqn:Hi; cbn [negb].
  - cbn. exact Hi.
  - rewrite Z.leb_antisym.
    destruct (elapsed_of now (boottime (sys_main s)) <? 1000)%Z.
    + destruct (main_first (sys_main s)); cbn; exact Hi.
    + reflexivity.
Qed.

Lemma initialized_after_audio hw (inL inR : buf) s :
  initialized (sys_world (fst (sys_step (AudioBlock hw inL inR) s)))
  = initialized (sys_world s).
Proof. cbn. apply initialized_after_block. Qed.

(** No tick changes the statics while [first] is still set afterwards. *)
Lemma statics_fresh_step t s :
  (first (statics (sys_world s)) = true ->
   statics (sys_world s) = statics_init) ->
  first (statics (sys_world (fst (sys_step t s)))) = true ->
  statics (sys_world (fst (sys_step t s))) = statics_init.
Proof.
  intros Hinv. destruct t as [now|hw inL inR].
  - unfold sys_step, main_iter.
    destruct (initialized (sys_world s)); cbn [negb].
    + cbn. exact Hinv.
    + destruct (elapsed_of now (boottime (sys_main s)) <? 1000)%Z.
      * destruct (main_first (sys_main s)); cbn; exact Hinv.
      * cbn. exact Hinv.
  - cbn [sys_step fst sys_world].
    destruct (initialized (sys_world s)) eqn:Hi.
    + rewrite (statics_after_block _ _ _ _ Hi). cbn. discriminate.
    + unfold AudioCallback. rewrite Hi. cbn. exact Hinv.
Qed.

Lemma sys_run_snoc (ts : list Tick) t s :
  fst (sys_run (ts ++ [t]) s) = fst (sys_step t (fst (sys_run ts s))).
Proof.
  revert s. induction ts as [|t0 ts IH]; intros s.
  - cbn. destruct (sys_step t s). reflexivity.
  - cbn [app sys_run]. destruct (sys_step t0 s) as [s1 o] eqn:E1.
    specialize (IH s1).
    destruct (sys_run (ts ++ [t]) s1) as [s2 os] eqn:E2.
    destruct (sys_run ts s1) as [s3 os'] eqn:E3.
    cbn in *. exact IH.
Qed.

Lemma statics_fresh_run (ts : list Tick) s :
  (first (statics (sys_world s)) = true ->
   statics (sys_world s) = statics_init) ->
  first (statics (sys_world (fst (sys_run ts s)))) = true ->
  statics (sys_world (fst (sys_run ts s))) = statics_init.
Proof.
  induction ts as [|t ts IH] using rev_ind; intros Hinv.
  - exact Hinv.
  - rewrite sys_run_snoc. apply statics_fresh_step. apply IH, Hinv.
Qed.

(** READY is stable under every tick and every sequence of ticks. *)
Lemma ready_step t s :
  boot_state s = READY -> boot_state (fst (sys_step t s)) = READY.
Proof.
  intros H. apply boot_state_READY in H. apply boot_state_READY.
  destruct t as [now|hw inL inR].
  - rewrite initialized_after_main, H. reflexivity.
  - rewrite initialized_after_audio. exact H.
Qed.

Lemma ready_run (ts : list Tick) s :
  boot_state s = READY -> boot_state (fst (sys_run ts s)) = READY.
Proof.
  intros H. induction ts as [|t ts IH] using rev_ind.
  - exact H.
  - rewrite sys_run_snoc. apply ready_step, IH.
Qed.

(** C10.  In every state the system reaches in which the next block is the
    first to be processed (boot is over and [first] is still set),
    whatever the knobs read and whether or not the encoder is held:
    [shift] is false, the threshold and release controls are locked, and
    the gate receives threshold 0.4f, release 0.5f and bypass 0, followed
    by [Update]. *)
Theorem first_block_gate_defaults
  (boot : Z) (d0 : D) (g0 : G) s hw (inL inR : buf) :
  reachable boot d0 g0 s ->
  initialized (sys_world s) = true ->
  first (statics (sys_world s)) = true ->
  shift_of hw (statics (sys_world s)) = false
  /\ grab_calls (b_trace (AudioCallback hw inL inR (sys_world s)))
     = [GrabUpdate CV_FILTER (knob_top hw); GrabUpdate CV_MIX (knob_bottom hw);
        GrabLock NG_THRESHOLD; GrabLock NG_RELEASE]
  /\ ng_config (b_trace (AudioCallback hw inL inR (sys_world s)))
     = [NgSetParam P_THRESHOLD F32.c0_4;
        NgSetParam P_RELEASE F32.half;
        NgSetParam P_NG_BYPASS F32.zero;
        NgUpdate].
Proof.
  intros [ts ->] Hi Hf.
  set (s := fst (sys_run ts (sys_init boot d0 g0))) in *.
  assert (Hst : statics (sys_world s) = statics_init)
    by (apply statics_fresh_run; [reflexivity | exact Hf]).
  assert (Hsh : shift_of hw (statics (sys_world s)) = false)
    by (unfold shift_of; rewrite Hf; apply andb_false_r).
  split; [exact Hsh|].
  split.
  - rewrite (grab_calls_block _ _ _ _ Hi), Hsh. reflexivity.
  - rewrite (ng_config_block _ _ _ _ Hi), (statics_after_block _ _ _ _ Hi).
    rewrite Hf. cbn [orb ng_threshold ng_release].
    unfold controls_step. rewrite Hsh, Hst.
    cbn [multiplex negb fold_left exec_grab encoder_step statics_init
         ng_threshold ng_release first cur_gain cur_level cv_filter cv_mix].
    rewrite !gv_Get_Lock, !gv_Get_make. reflexivity.
Qed.

(** C8.  The boot sequence goes one way, from BLINKING to READY.  No tick
    and no sequence of ticks leaves READY.  From BLINKING only a loop iteration leaves, and it does
    when the time since startup it reads is no longer below 1000 ms: at
    999 ms the state stays BLINKING, at 1001 ms it becomes READY.  While
    BLINKING the audio callback returns its input as output, calls no
    collaborator and changes no state.  In READY every loop iteration sets
    the left LED to (0, envVal, 0) and the right LED to (satVal, 0, 0) and
    updates the LEDs. *)
Theorem boot_state_machine s :
  (forall t, boot_state s = READY -> boot_state (fst (sys_step t s)) = READY)
  /\ (forall ts : list Tick, boot_state s = READY ->
        boot_state (fst (sys_run ts s)) = READY)
  /\ (forall t, boot_state s = BLINKING ->
        (boot_state (fst (sys_step t s)) = READY
         <-> exists now : Z,
               t = MainIter now
               /\ (1000 <= elapsed_of now (boottime (sys_main s)))%Z))
  /\ (forall now : Z, boot_state s = BLINKING ->
        elapsed_of now (boottime (sys_main s)) = 999%Z ->
        boot_state (fst (sys_step (MainIter now) s)) = BLINKING)
  /\ (forall now : Z, boot_state s = BLINKING ->
        elapsed_of now (boottime (sys_main s)) = 1001%Z ->
        boot_state (fst (sys_step (MainIter now) s)) = READY)
  /\ (forall hw (inL inR : buf), boot_state s = BLINKING ->
        sys_step (AudioBlock hw inL inR) s = (s, ObsAudio (inL, inR) []))
  /\ (forall now : Z, boot_state s = READY ->
        sys_step (MainIter now) s
        = (s, ObsLeds [SetLed LED_LEFT F32.zero (envVal (sys_world s))
                         F32.zero;
                       SetLed LED_RIGHT (satVal (sys_world s)) F32.zero
                         F32.zero;
                       UpdateLeds])).
Proof.
  assert (Hstep : forall t,
             initialized (sys_world (fst (sys_step t s)))
             = initialized (sys_world s)
               || match t with
                  | MainIter now =>
                      (1000 <=? elapsed_of now (boottime (sys_main s)))%Z
                  | AudioBlock _ _ _ => false
                  end).
  { intros [now|hw inL inR].
    - apply initialized_after_main.
    - rewrite initialized_after_audio, orb_false_r. reflexivity. }
  split; [|split; [|split; [|split; [|split; [|split]]]]].
  - intros t H. apply ready_step. exact H.
  - intros ts H. apply ready_run. exact H.
  - intros t H. apply boot_state_BLINKING in H. split.
    + intros Hr. apply boot_state_READY in Hr. rewrite Hstep, H in Hr.
      destruct t as [now|hw inL inR]; [|discriminate].
      exists now. split; [reflexivity|]. apply Z.leb_le. exact Hr.
    + intros [now [-> Hle]]. apply boot_state_READY.
      apply Z.leb_le in Hle. rewrite Hstep, Hle. apply orb_true_r.
  - intros now H He. apply boot_state_BLINKING in H.
    apply boot_state_BLINKING. rewrite Hstep, H, He. reflexivity.
  - intros now H He. apply boot_state_BLINKING in H.
    apply boot_state_READY. rewrite Hstep, H, He. reflexivity.
  - intros hw inL inR H. apply boot_state_BLINKING in H.
    destruct s as [m w]. cbn in *. unfold AudioCallback. rewrite H.
    reflexivity.
  - intros now H. apply boot_state_READY in H. destruct s as [m w].
    cbn in *. unfold main_iter. rewrite H. reflexivity.
Qed.

End Boot.

(** ** The callback on concrete inputs *)

Section Concrete.

Import Mock.

(** C1, the claim as stated fails.  Over four blocks with the encoder
    released, held, held, released, [shift] is false, true, true, false.
    The gate is re-parameterized on blocks 0, 1 and 2 and not on block 3;
    "block 0 and every block whose shift differs from the previous one"
    is blocks 0, 1 and 3. *)
Lemma gate_cadence_not_on_transitions :
  run_shifts hold_ins (ready F32.five F32.half) = [false; true; true; false]
  /\ map reparameterized (run_blocks hold_ins (ready F32.five F32.half))
     = [true; true; true; false]
  /\ on_transitions None
       (run_shifts hold_ins (ready F32.five F32.half))
     = [true; true; false; true]
  /\ map reparameterized (run_blocks hold_ins (ready F32.five F32.half))
     <> on_transitions None
          (run_shifts hold_ins (ready F32.five F32.half)).
Proof.
  split; [reflexivity|]. split; [vm_compute; reflexivity|].
  split; [reflexivity|]. vm_compute. discriminate.
Qed.

Lemma gate_reparam_cadence_witness :
  exists b : @Block CatchValue DistMock GateMock,
    (initialized (ready F32.five F32.half) = true
     /\ first (statics (ready F32.five F32.half)) = true
     /\ nth_error (run_blocks hold_ins (ready F32.five F32.half)) 2 = Some b
     /\ nth_error (run_shifts hold_ins (ready F32.five F32.half)) 2
        = Some true)
    /\ ng_updates (b_trace b) = 1%nat
    /\ reparameterized b = true.
Proof.
  eexists. split.
  - repeat split; reflexivity.
  - apply (gate_reparam_cadence hold_ins (ready F32.five F32.half) 2 _ true);
      reflexivity.
Defined.

(** C2, the claim as stated fails.  With a distortion that inverts the
    signal and the input block ([1.0], [0.5]), the gate is called with the
    distortion's output [-1.0], [-0.5] as first and second argument and
    the original left input [1.0] as third: what the spec's interface
    names [sidechainLeft] receives the distortion's left output, and what
    it names [inLeft] receives the original left input. *)
Lemma gate_call_not_as_specified :
  process_calls
    (b_trace (AudioCallback (idle F32.half) [F32.one] [F32.half]
                            (ready F32.five F32.half)))
  = [DistProcess [F32.one] [F32.half];
     NgProcess [F32.opp F32.one] [F32.opp F32.half] [F32.one]]
  /\ spec_sidechainLeft
       (NgProcess [F32.opp F32.one] [F32.opp F32.half] [F32.one])
     = Some [F32.opp F32.one]
  /\ spec_inLeft
       (NgProcess [F32.opp F32.one] [F32.opp F32.half] [F32.one])
     = Some [F32.one]
  /\ ~ gate_sidechain_as_specified [F32.one]
         (b_trace (AudioCallback (idle F32.half) [F32.one] [F32.half]
                                 (ready F32.five F32.half))).
Proof.
  split; [vm_compute; reflexivity|].
  split; [reflexivity|]. split; [reflexivity|].
  intros [e [Hin Hs]]. vm_compute in Hin.
  repeat (destruct Hin as [<-|Hin]; [vm_compute in Hs; discriminate|]).
  exact Hin.
Qed.

Lemma gate_processes_dist_output_witness :
  initialized (ready F32.five F32.half) = true
  /\ process_calls
       (b_trace (AudioCallback (idle F32.half) [F32.one] [F32.half]
                               (ready F32.five F32.half)))
     = [DistProcess [F32.one] [F32.half];
        NgProcess [F32.opp F32.one] [F32.opp F32.half] [F32.one]].
Proof.
  split; [reflexivity|].
  destruct (gate_processes_dist_output
              (idle F32.half) [F32.one] [F32.half]
              (ready F32.five F32.half) eq_refl)
    as (OUT_L & OUT_R & Hout & _ & Hcalls & _).
  vm_compute in Hout. injection Hout as <- <-. exact Hcalls.
Defined.

(** C3, the code at one tick.  With the encoder turned by one tick and not
    held, [gain] stays at 0.5: the increment of line 82 is 0.  With the
    encoder held on a later block, [level] stays at 0.5 likewise.  Scaled
    by 1/16 the step would be 0.0625 and the result 0.5625. *)
Theorem encoder_tick_is_lost :
  encInc_of (with_increment 1 (idle F32.half)) = F32.zero
  /\ spec_encInc (with_increment 1 (idle F32.half)) = F32.lit 1 16
  /\ cur_gain (statics (ready F32.five F32.half)) = F32.half
  /\ cur_gain
       (statics
          (b_world (AudioCallback (with_increment 1 (idle F32.half))
                                  [F32.one] [F32.half]
                                  (ready F32.five F32.half))))
     = F32.half
  /\ cur_level
       (statics
          (b_world
             (AudioCallback
                (with_pressed true (with_increment 1 (idle F32.half)))
                [F32.one] [F32.half]
                (b_world (AudioCallback (idle F32.half) [F32.one] [F32.half]
                                        (ready F32.five F32.half))))))
     = F32.half
  /\ fclamp (F32.add F32.half
                     (spec_encInc (with_increment 1 (idle F32.half))))
            F32.zero F32.one
     = F32.lit 9 16
  /\ F32.lit 9 16 <> F32.half.
Proof.
  repeat split; try (vm_compute; reflexivity).
  vm_compute. discriminate.
Qed.

Lemma gate_bypass_cutoff_witness :
  (initialized (ready_thr (F32.lit 4 100)) = true
   /\ ng_config
        (b_trace (AudioCallback (idle F32.half) [F32.one] [F32.half]
                                (ready_thr (F32.lit 4 100)))) <> [])
  /\ ng_pushed P_NG_BYPASS
       (b_trace (AudioCallback (idle F32.half) [F32.one] [F32.half]
                               (ready_thr (F32.lit 4 100))))
     = [F32.one].
Proof.
  assert (Hne : ng_config
                  (b_trace (AudioCallback (idle F32.half) [F32.one]
                              [F32.half] (ready_thr (F32.lit 4 100))))
                <> []) by (vm_compute; discriminate).
  split; [split; [reflexivity | exact Hne]|].
  destruct (gate_bypass_cutoff (idle F32.half) [F32.one] [F32.half]
              (ready_thr (F32.lit 4 100)) eq_refl Hne)
    as (_ & _ & _ & H4 & _).
  apply H4. vm_compute. reflexivity.
Defined.

Lemma mode_flags_truth_table_witness :
  initialized (ready F32.five F32.half) = true
  /\ dist_pushed P_HARD
       (b_trace (AudioCallback
                   (with_switches POS_CENTER POS_DOWN (idle F32.half))
                   [F32.one] [F32.half] (ready F32.five F32.half)))
     = [F32.one]
  /\ dist_pushed P_TIGHT
       (b_trace (AudioCallback
                   (with_switches POS_CENTER POS_DOWN (idle F32.half))
                   [F32.one] [F32.half] (ready F32.five F32.half)))
     = [F32.one].
Proof.
  split; [reflexivity|].
  destruct (mode_flags_truth_table
              (with_switches POS_CENTER POS_DOWN (idle F32.half))
              [F32.one] [F32.half] (ready F32.five F32.half) eq_refl)
    as (Hhard & _ & _ & _ & _ & _ & Htight & _).
  split; [apply Hhard; left; reflexivity | apply Htight; reflexivity].
Defined.

Lemma mix_routing_witness :
  initialized (ready F32.five F32.half) = true
  /\ dist_pushed P_DRYWET
       (b_trace (AudioCallback
                   (with_switches POS_CENTER POS_DOWN (idle F32.half))
                   [F32.one] [F32.half] (ready F32.five F32.half)))
     = [F32.one]
  /\ dist_pushed P_SILED
       (b_trace (AudioCallback
                   (with_switches POS_CENTER POS_DOWN (idle F32.half))
                   [F32.one] [F32.half] (ready F32.five F32.half)))
     = [F32.half].
Proof.
  split; [reflexivity|].
  destruct (mix_routing
              (with_switches POS_CENTER POS_DOWN (idle F32.half))
              [F32.one] [F32.half] (ready F32.five F32.half) eq_refl)
    as (_ & Hhard & _).
  destruct (Hhard eq_refl) as [Hd Hs].
  split; [exact Hd|]. rewrite Hs. vm_compute. reflexivity.
Defined.

Lemma knob_multiplexer_witness :
  initialized (ready F32.five F32.half) = true
  /\ grab_calls
       (b_trace (AudioCallback (idle F32.half) [F32.one] [F32.half]
                               (ready F32.five F32.half)))
     = [GrabUpdate CV_FILTER F32.half; GrabUpdate CV_MIX F32.half;
        GrabLock NG_THRESHOLD; GrabLock NG_RELEASE].
Proof.
  split; [reflexivity|].
  destruct (knob_multiplexer (idle F32.half) [F32.one] [F32.half]
              (ready F32.five F32.half) eq_refl) as (Hoff & _).
  destruct (Hoff eq_refl) as (Hcalls & _). exact Hcalls.
Defined.

Lemma telemetry_scaling_witness :
  initialized (ready F32.five F32.half) = true
  /\ satVal (b_world (AudioCallback (idle F32.half) [F32.one] [F32.half]
                                    (ready F32.five F32.half)))
     = F32.one
  /\ envVal (b_world (AudioCallback (idle F32.half) [F32.one] [F32.half]
                                    (ready F32.five F32.half)))
     = F32.one.
Proof.
  split; [reflexivity|].
  destruct (telemetry_scaling (idle F32.half) [F32.one] [F32.half]
              (ready F32.five F32.half) eq_refl)
    as (_ & _ & Hsat & Henv).
  split; [apply Hsat | apply Henv]; reflexivity.
Defined.

Lemma first_block_gate_defaults_witness :
  (reachable 0 (d0 F32.five) (g0 F32.half) (fst (sys_run boot_ticks sys0))
   /\ initialized (sys_world (fst (sys_run boot_ticks sys0))) = true
   /\ first (statics (sys_world (fst (sys_run boot_ticks sys0)))) = true)
  /\ ng_config
       (b_trace (AudioCallback
                   (with_pressed true (idle (F32.lit 9 10)))
                   [F32.one] [F32.half]
                   (sys_world (fst (sys_run boot_ticks sys0)))))
     = [NgSetParam P_THRESHOLD F32.c0_4;
        NgSetParam P_RELEASE F32.half;
        NgSetParam P_NG_BYPASS F32.zero;
        NgUpdate].
Proof.
  assert (Hr : reachable 0 (d0 F32.five) (g0 F32.half)
                 (fst (sys_run boot_ticks sys0)))
    by (exists boot_ticks; reflexivity).
  split; [split; [exact Hr | split; reflexivity]|].
  apply (first_block_gate_defaults 0 (d0 F32.five) (g0 F32.half)
           (fst (sys_run boot_ticks sys0))
           (with_pressed true (idle (F32.lit 9 10)))
           [F32.one] [F32.half] Hr eq_refl eq_refl).
Defined.

Lemma boot_state_machine_witness :
  boot_state sys0 = BLINKING
  /\ boot_state (fst (sys_step (MainIter 999) sys0)) = BLINKING
  /\ boot_state (fst (sys_step (MainIter 1001) sys0)) = READY
  /\ sys_step (AudioBlock (idle F32.half) [F32.one] [F32.half]) sys0
     = (sys0, ObsAudio ([F32.one], [F32.half]) []).
Proof.
  destruct (boot_state_machine sys0)
    as (_ & _ & _ & H999 & H1001 & Hpass & _).
  split; [reflexivity|].
  split; [apply H999; reflexivity|].
  split; [apply H1001; reflexivity|].
  apply Hpass. reflexivity.
Defined.

End Concrete.

(** ** Further properties of the audio callback *)

Section Dispatch.

Context {GV D G : Type}.
Context {grab : GrabValue GV} {distE : PRatDist D} {gateE : NoiseGate G}.

Implicit Types (w : @World GV D G) (st : @Statics GV) (hw : Controls).

Lemma fclamp_in_unit (x : float) :
  in_unit (fclamp x F32.zero F32.one) = true.
Proof.
  unfold in_unit. destruct (fclamp_unit_range x) as [-> ->]. reflexivity.
Qed.

Lemma flag_in_unit (b : bool) :
  in_unit (if b then F32.one else F32.zero) = true.
Proof. destruct b; reflexivity. Qed.

(** Every value the callback pushes to the distortion engine lies in
    [0, 1], whatever the knobs, the CV and the catch values hold (NaN
    included). *)
Theorem dist_params_in_unit_range
  hw (inL inR : buf) w (p : DistParam) (v : float) :
  initialized w = true ->
  In v (dist_pushed p (b_trace (AudioCallback hw inL inR w))) ->
  in_unit v = true.
Proof.
  intros Hi Hin. rewrite (dist_pushed_block _ _ _ _ _ Hi) in Hin.
  pose proof (fclamp_in_unit
                (F32.add (cur_gain (controls_step hw (statics w)))
                         (pitch_cv hw))) as Hgain.
  pose proof (fclamp_in_unit
                (gv_Get (cv_filter (controls_step hw (statics w)))))
    as Hfilter.
  pose proof (fclamp_in_unit (cur_level (controls_step hw (statics w))))
    as Hlevel.
  pose proof (fclamp_in_unit
                (gv_Get (cv_mix (controls_step hw (statics w))))) as Hmix.
  change (fclamp (F32.add (cur_gain (controls_step hw (statics w)))
                          (pitch_cv hw)) F32.zero F32.one)
    with (gain_of hw (controls_step hw (statics w))) in Hgain.
  change (fclamp (gv_Get (cv_filter (controls_step hw (statics w))))
                 F32.zero F32.one)
    with (filter_of (controls_step hw (statics w))) in Hfilter.
  change (fclamp (cur_level (controls_step hw (statics w)))
                 F32.zero F32.one)
    with (level_of (controls_step hw (statics w))) in Hlevel.
  change (fclamp (gv_Get (cv_mix (controls_step hw (statics w))))
                 F32.zero F32.one)
    with (mix_of (controls_step hw (statics w))) in Hmix.
  pose proof (flag_in_unit
                (Switch3_eqb (sw_left hw) POS_CENTER || gate_in hw))
    as Hhard.
  pose proof (flag_in_unit (Switch3_eqb (sw_left hw) POS_DOWN)) as Hbyp.
  pose proof (flag_in_unit (Switch3_eqb (sw_right hw) POS_CENTER)) as Hruetz.
  pose proof (flag_in_unit (Switch3_eqb (sw_right hw) POS_DOWN)) as Htight.
  fold (hard_of hw) in Hhard. fold (bypass_of hw) in Hbyp.
  fold (ruetz_of hw) in Hruetz. fold (tight_of hw) in Htight.
  unfold dist_dispatch in Hin.
  generalize dependent (gain_of hw (controls_step hw (statics w))).
  generalize dependent (filter_of (controls_step hw (statics w))).
  generalize dependent (level_of (controls_step hw (statics w))).
  generalize dependent (mix_of (controls_step hw (statics w))).
  generalize dependent (tight_of hw). generalize dependent (ruetz_of hw).
  generalize dependent (bypass_of hw). generalize dependent (hard_of hw).
  intros hard Hhard bypass Hbyp ruetz Hruetz tight Htight
         mix Hmix level Hlevel filter Hfilter gain Hin Hgain.
  destruct (F32.geb hard F32.half), p; cbn in Hin;
    repeat (destruct Hin as [<-|Hin]; [assumption || reflexivity|]);
    contradiction.
Qed.

Lemma dist_calls_app (t u : list Event) :
  dist_calls (t ++ u) = dist_calls t ++ dist_calls u.
Proof. apply filter_app. Qed.

(** On every processed block the distortion engine receives its
    parameters, then one [Update], then [Process], in this order and
    nothing else; each of gain, filter, level, dryWet, hard, tight, ruetz
    and bypass is pushed exactly once and siLed at most once. *)
Theorem dist_dispatch_every_block hw (inL inR : buf) w :
  initialized w = true ->
  exists sets : list Event,
    dist_calls (b_trace (AudioCallback hw inL inR w))
    = sets ++ [DistUpdate; DistProcess inL inR]
    /\ forallb is_DistSetParam sets = true
    /\ (forall p : DistParam, p <> P_SILED ->
          length (dist_pushed p (b_trace (AudioCallback hw inL inR w)))
          = 1%nat)
    /\ (length (dist_pushed P_SILED (b_trace (AudioCallback hw inL inR w)))
        <= 1)%nat.
Proof.
  intros Hi.
  assert (Hcalls :
            dist_calls (b_trace (AudioCallback hw inL inR w))
            = dist_dispatch (gain_of hw (controls_step hw (statics w)))
                (filter_of (controls_step hw (statics w)))
                (level_of (controls_step hw (statics w)))
                (mix_of (controls_step hw (statics w)))
                (hard_of hw) (tight_of hw) (ruetz_of hw) (bypass_of hw)
              ++ [DistProcess inL inR]).
  { unfold AudioCallback. rewrite Hi. cbn [negb b_trace].
    rewrite !dist_calls_app.
    replace (dist_calls (multiplex _ _ _)) with (@nil Event)
      by (destruct (shift_of hw (statics w)); reflexivity).
    match goal with
    | |- context [dist_calls (if ?c then ng_dispatch ?a ?b else [])] =>
        replace (dist_calls (if c then ng_dispatch a b else []))
          with (@nil Event) by (destruct c; reflexivity)
    end.
    cbn [app]. f_equal. unfold dist_dispatch.
    destruct (F32.geb (hard_of hw) F32.half); reflexivity. }
  assert (Hlen : forall p : DistParam,
             length (dist_pushed p (b_trace (AudioCallback hw inL inR w)))
             = match p with
               | P_SILED =>
                   if F32.geb (hard_of hw) F32.half then 1%nat else 0%nat
               | _ => 1%nat
               end).
  { intros p. rewrite (dist_pushed_block _ _ _ _ _ Hi).
    unfold dist_dispatch.
    destruct (F32.geb (hard_of hw) F32.half), p; reflexivity. }
  rewrite Hcalls. unfold dist_dispatch.
  exists ([DistSetParam P_GAIN (gain_of hw (controls_step hw (statics w)));
           DistSetParam P_FILTER (filter_of (controls_step hw (statics w)));
           DistSetParam P_LEVEL (level_of (controls_step hw (statics w)))]
          ++ (if F32.geb (hard_of hw) F32.half
              then [DistSetParam P_DRYWET F32.one;
                    DistSetParam P_SILED
                      (mix_of (controls_step hw (statics w)))]
              else [DistSetParam P_DRYWET
                      (mix_of (controls_step hw (statics w)))])
          ++ [DistSetParam P_HARD (hard_of hw);
              DistSetParam P_TIGHT (tight_of hw);
              DistSetParam P_RUETZ (ruetz_of hw);
              DistSetParam P_BYPASS (bypass_of hw)]).
  split; [|split; [|split]].
  - destruct (F32.geb (hard_of hw) F32.half); reflexivity.
  - destruct (F32.geb (hard_of hw) F32.half); reflexivity.
  - intros p Hp. rewrite Hlen. destruct p; try reflexivity. congruence.
  - rewrite Hlen. destruct (F32.geb (hard_of hw) F32.half); auto.
Qed.

End Dispatch.

Section Controls.

Context {GV D G : Type}.
Context {grab : GrabValue GV} {distE : PRatDist D} {gateE : NoiseGate G}.

Implicit Types (w : @World GV D G) (st : @Statics GV) (hw : Controls).

(** The catch-value calls of lines 68-80 leave gain, level and [first]
    alone. *)
Lemma grabs_keep_gain_level (shift : bool) (cv0 cv1 : float) st :
  cur_gain (fold_left exec_grab (multiplex shift cv0 cv1) st) = cur_gain st
  /\ cur_level (fold_left exec_grab (multiplex shift cv0 cv1) st)
     = cur_level st
  /\ first (fold_left exec_grab (multiplex shift cv0 cv1) st) = first st.
Proof. destruct shift; repeat split; reflexivity. Qed.

(** The catch values after line 87, by the state of [shift]. *)
Lemma controls_step_catch hw st :
  (shift_of hw st = false ->
   cv_filter (controls_step hw st) = gv_Update (knob_top hw) (cv_filter st)
   /\ cv_mix (controls_step hw st) = gv_Update (knob_bottom hw) (cv_mix st)
   /\ ng_threshold (controls_step hw st) = gv_Lock (ng_threshold st)
   /\ ng_release (controls_step hw st) = gv_Lock (ng_release st))
  /\ (shift_of hw st = true ->
      cv_filter (controls_step hw st) = gv_Lock (cv_filter st)
      /\ cv_mix (controls_step hw st) = gv_Lock (cv_mix st)
      /\ ng_threshold (controls_step hw st)
         = gv_Update (knob_top hw) (ng_threshold st)
      /\ ng_release (controls_step hw st)
         = gv_Update (knob_bottom hw) (ng_release st)).
Proof.
  unfold controls_step.
  split; intros Hs; rewrite Hs; cbn; repeat split; reflexivity.
Qed.

(** The two switches give at most one mod and, without the gate input, at
    most one clip mode: ruetz and tight are never both 1, and hard and
    bypass are both 1 exactly when the clip switch is down while the gate
    input is active. *)
Theorem mode_flags_exclusive hw (inL inR : buf) w :
  initialized w = true ->
  ~ (dist_pushed P_RUETZ (b_trace (AudioCallback hw inL inR w)) = [F32.one]
     /\ dist_pushed P_TIGHT (b_trace (AudioCallback hw inL inR w))
        = [F32.one])
  /\ (dist_pushed P_HARD (b_trace (AudioCallback hw inL inR w)) = [F32.one]
      /\ dist_pushed P_BYPASS (b_trace (AudioCallback hw inL inR w))
         = [F32.one]
      <-> sw_left hw = POS_DOWN /\ gate_in hw = true).
Proof.
  intros Hi. rewrite !(dist_pushed_block _ _ _ _ _ Hi).
  unfold dist_dispatch, hard_of, bypass_of, ruetz_of, tight_of.
  destruct (sw_left hw), (sw_right hw), (gate_in hw); vm_compute;
    (split; [intros [H1 H2]; discriminate
            | split; [intros [H1 H2]; try discriminate; auto
                     | intros [H1 H2]; try discriminate; auto]]).
Qed.

Lemma run_shifts_after_first (ins : list (Controls * (buf * buf))) :
  forall w,
  initialized w = true ->
  first (statics w) = false ->
  run_shifts ins w = map pressed_of ins.
Proof.
  induction ins as [|[hw [inL inR]] rest IH]; intros w Hi Hf.
  - reflexivity.
  - cbn [run_shifts map]. f_equal.
    + unfold shift_of, pressed_of. rewrite Hf. apply andb_true_r.
    + apply IH.
      * rewrite initialized_after_block. exact Hi.
      * rewrite (statics_after_block _ _ _ _ Hi). reflexivity.
Qed.

(** In a run of the callback from the first processed block, [shift] is
    false in the first block and equals the encoder's pressed state in
    every later one: [first] is cleared by the first processed block and
    never set again. *)
Theorem shift_follows_encoder
  (ins : list (Controls * (buf * buf))) w :
  initialized w = true ->
  first (statics w) = true ->
  run_shifts ins w
  = match ins with
    | [] => []
    | _ :: rest => false :: map pressed_of rest
    end
  /\ Forall (fun b : @Block GV D G => first (statics (b_world b)) = false)
            (run_blocks ins w).
Proof.
  intros Hi Hf. split.
  - destruct ins as [|[hw [inL inR]] rest]; [reflexivity|].
    cbn [run_shifts]. f_equal.
    + unfold shift_of. rewrite Hf. apply andb_false_r.
    + apply run_shifts_after_first.
      * rewrite initialized_after_block. exact Hi.
      * rewrite (statics_after_block _ _ _ _ Hi). reflexivity.
  - clear Hf. revert w Hi.
    induction ins as [|[hw [inL inR]] rest IH]; intros w Hi.
    + constructor.
    + cbn [run_blocks]. constructor.
      * rewrite (statics_after_block _ _ _ _ Hi). reflexivity.
      * apply IH. rewrite initialized_after_block. exact Hi.
Qed.

(** The statics a processed block leaves depend on the statics it found
    and on the knobs, the encoder's pressed state and its increment, and
    on nothing else: not on the audio, the engines, the CV, the switches
    or the gate input. *)
Theorem statics_depend_on_controls_only
  hw hw' (inL inR inL' inR' : buf) w w' :
  initialized w = true ->
  initialized w' = true ->
  statics w = statics w' ->
  knob_top hw = knob_top hw' ->
  knob_bottom hw = knob_bottom hw' ->
  enc_pressed hw = enc_pressed hw' ->
  enc_increment hw = enc_increment hw' ->
  statics (b_world (AudioCallback hw inL inR w))
  = statics (b_world (AudioCallback hw' inL' inR' w')).
Proof.
  intros Hi Hi' Hst Ht Hb Hp Hn.
  rewrite (statics_after_block _ _ _ _ Hi), (statics_after_block _ _ _ _ Hi').
  unfold controls_step, shift_of, encInc_of.
  rewrite Hst, Ht, Hb, Hp, Hn. reflexivity.
Qed.

(** What the knobs reach within the block: without shift the filter
    pushed to the distortion engine is the clamped value the filter
    control returns after [Update(top knob)], and the resolved mix is that
    of the mix control after [Update(bottom knob)]; with shift the gate
    receives what the threshold and release controls return after
    [Update] with the top and bottom knob. *)
Theorem knobs_reach_engines hw (inL inR : buf) w :
  initialized w = true ->
  (shift_of hw (statics w) = false ->
   dist_pushed P_FILTER (b_trace (AudioCallback hw inL inR w))
   = [fclamp (gv_Get (gv_Update (knob_top hw) (cv_filter (statics w))))
             F32.zero F32.one]
   /\ mix_of (statics (b_world (AudioCallback hw inL inR w)))
      = fclamp (gv_Get (gv_Update (knob_bottom hw) (cv_mix (statics w))))
               F32.zero F32.one)
  /\ (shift_of hw (statics w) = true ->
      ng_pushed P_THRESHOLD (b_trace (AudioCallback hw inL inR w))
      = [gv_Get (gv_Update (knob_top hw) (ng_threshold (statics w)))]
      /\ ng_pushed P_RELEASE (b_trace (AudioCallback hw inL inR w))
         = [gv_Get (gv_Update (knob_bottom hw) (ng_release (statics w)))]).
Proof.
  intros Hi.
  destruct (controls_step_catch hw (statics w)) as [Hoff Hon].
  split; intros Hs.
  - destruct (Hoff Hs) as (Hf & Hm & _).
    rewrite (dist_pushed_block _ _ _ _ _ Hi), (mix_of_after_block _ _ _ _ Hi).
    unfold mix_of, filter_of. rewrite Hf, Hm. split; [|reflexivity].
    unfold dist_dispatch.
    destruct (F32.geb (hard_of hw) F32.half); reflexivity.
  - destruct (Hon Hs) as (_ & _ & Ht & Hr).
    rewrite (ng_pushed_config P_THRESHOLD), (ng_pushed_config P_RELEASE).
    rewrite (ng_config_block _ _ _ _ Hi), (statics_after_block _ _ _ _ Hi).
    rewrite Hs, orb_true_r. cbn [ng_threshold ng_release].
    rewrite Ht, Hr. split; reflexivity.
Qed.

(** What shift freezes, given that [Lock] keeps the held value
    ([GrabValue.h] is not part of the sources): with shift the filter
    pushed and the resolved mix are those of the statics the block found,
    whatever the knobs read; without shift the threshold and release
    controls return what they returned before the block. *)
Theorem locked_values_hold hw (inL inR : buf) w :
  initialized w = true ->
  (shift_of hw (statics w) = true ->
   dist_pushed P_FILTER (b_trace (AudioCallback hw inL inR w))
   = [filter_of (statics w)]
   /\ mix_of (statics (b_world (AudioCallback hw inL inR w)))
      = mix_of (statics w))
  /\ (shift_of hw (statics w) = false ->
      gv_Get (ng_threshold (statics (b_world (AudioCallback hw inL inR w))))
      = gv_Get (ng_threshold (statics w))
      /\ gv_Get (ng_release (statics (b_world (AudioCallback hw inL inR w))))
         = gv_Get (ng_release (statics w))).
Proof.
  intros Hi.
  destruct (controls_step_catch hw (statics w)) as [Hoff Hon].
  split; intros Hs.
  - destruct (Hon Hs) as (Hf & Hm & _).
    rewrite (dist_pushed_block _ _ _ _ _ Hi), (mix_of_after_block _ _ _ _ Hi).
    unfold mix_of, filter_of. rewrite Hf, Hm, !gv_Get_Lock.
    split; [|reflexivity].
    unfold dist_dispatch.
    destruct (F32.geb (hard_of hw) F32.half); reflexivity.
  - destruct (Hoff Hs) as (_ & _ & Ht & Hr).
    rewrite (statics_after_block _ _ _ _ Hi). cbn [ng_threshold ng_release].
    rewrite Ht, Hr, !gv_Get_Lock. split; reflexivity.
Qed.

End Controls.

(** ** Further properties of the system *)

Section Runs.

Context {GV D G : Type}.
Context {grab : GrabValue GV} {distE : PRatDist D} {gateE : NoiseGate G}.

Implicit Types (s : @Sys GV D G) (w : @World GV D G) (t : Tick).

Lemma sys_run_cons t (ts : list Tick) s :
  sys_run (t :: ts) s
  = (fst (sys_run ts (fst (sys_step t s))),
     snd (sys_step t s) :: snd (sys_run ts (fst (sys_step t s)))).
Proof.
  cbn [sys_run]. destruct (sys_step t s) as [s1 o]. cbn [fst snd].
  destruct (sys_run ts s1) as [s2 os]. reflexivity.
Qed.

(** Every observation of a run is made by one tick from a state the run
    passes through. *)
Lemma obs_in_run (ts : list Tick) :
  forall s (o : Obs),
  In o (snd (sys_run ts s)) ->
  exists (ts1 : list Tick) t, o = snd (sys_step t (fst (sys_run ts1 s))).
Proof.
  induction ts as [|t ts IH]; intros s o Hin.
  - destruct Hin.
  - rewrite sys_run_cons in Hin. cbn [snd] in Hin.
    destruct Hin as [<-|Hin].
    + exists [], t. reflexivity.
    + destruct (IH _ _ Hin) as (ts1 & t' & ->).
      exists (t :: ts1), t'. rewrite sys_run_cons. reflexivity.
Qed.

(** What every tick keeps, every run keeps. *)
Lemma run_invariant (P : @Sys GV D G -> Prop) :
  (forall t s, P s -> P (fst (sys_step t s))) ->
  forall (ts : list Tick) s, P s -> P (fst (sys_run ts s)).
Proof.
  intros Hstep ts. induction ts as [|t ts IH]; intros s Hs.
  - exact Hs.
  - rewrite sys_run_cons. cbn [fst]. apply IH, Hstep, Hs.
Qed.

(** A loop iteration changes nothing of the world but [initialized]. *)
Lemma main_keeps_world (now : Z) s :
  dist (sys_world (fst (sys_step (MainIter now) s))) = dist (sys_world s)
  /\ ng (sys_world (fst (sys_step (MainIter now) s))) = ng (sys_world s)
  /\ envVal (sys_world (fst (sys_step (MainIter now) s)))
     = envVal (sys_world s)
  /\ satVal (sys_world (fst (sys_step (MainIter now) s)))
     = satVal (sys_world s)
  /\ statics (sys_world (fst (sys_step (MainIter now) s)))
     = statics (sys_world s).
Proof.
  unfold sys_step, main_iter.
  destruct (initialized (sys_world s)); cbn [negb].
  - cbn. repeat split; reflexivity.
  - destruct (elapsed_of now (boottime (sys_main s)) <? 1000)%Z.
    + destruct (main_first (sys_main s)); cbn; repeat split; reflexivity.
    + cbn. repeat split; reflexivity.
Qed.

Lemma telemetry_in_unit_step t s :
  in_unit (envVal (sys_world s)) = true
  /\ in_unit (satVal (sys_world s)) = true ->
  in_unit (envVal (sys_world (fst (sys_step t s)))) = true
  /\ in_unit (satVal (sys_world (fst (sys_step t s)))) = true.
Proof.
  intros [He Hs]. destruct t as [now|hw inL inR].
  - destruct (main_keeps_world now s) as (_ & _ & -> & -> & _).
    split; assumption.
  - cbn [sys_step fst sys_world]. unfold AudioCallback.
    destruct (initialized (sys_world s)); cbn [negb b_world envVal satVal].
    + unfold envVal_of, satVal_of. split; apply fclamp_in_unit.
    + split; assumption.
Qed.

Lemma leds_in_unit_step t s (c : LedCall) (x : float) :
  in_unit (envVal (sys_world s)) = true
  /\ in_unit (satVal (sys_world s)) = true ->
  In c (obs_leds (snd (sys_step t s))) ->
  In x (led_channels c) ->
  in_unit x = true.
Proof.
  intros [He Hs] Hc Hx. destruct t as [now|hw inL inR]; [|destruct Hc].
  unfold sys_step, main_iter in Hc.
  destruct (initialized (sys_world s)); cbn [negb] in Hc.
  - cbn in Hc.
    destruct Hc as [<-|[<-|[<-|[]]]]; cbn in Hx;
      repeat (destruct Hx as [<-|Hx]; [assumption || reflexivity|]);
      contradiction.
  - destruct (elapsed_of now (boottime (sys_main s)) <? 1000)%Z.
    + destruct (main_first (sys_main s)); cbn in Hc; [|contradiction].
      destruct Hc as [<-|[<-|[<-|[]]]]; cbn in Hx;
        repeat (destruct Hx as [<-|Hx]; [reflexivity|]);
        contradiction.
    + cbn in Hc. contradiction.
Qed.

(** Every channel value the status loop ever writes to a LED lies in
    [0, 1]: the telemetry the callback exports is clamped, whatever the
    engines report. *)
Theorem led_channels_in_unit_range
  (boot : Z) (d0 : D) (g0 : G) (ts : list Tick)
  (o : Obs) (c : LedCall) (x : float) :
  In o (snd (sys_run ts (sys_init boot d0 g0))) ->
  In c (obs_leds o) ->
  In x (led_channels c) ->
  in_unit x = true.
Proof.
  intros Ho Hc Hx.
  destruct (obs_in_run _ _ _ Ho) as (ts1 & t & ->).
  apply (leds_in_unit_step t (fst (sys_run ts1 (sys_init boot d0 g0))) c x);
    try assumption.
  apply (run_invariant
           (fun s => in_unit (envVal (sys_world s)) = true
                     /\ in_unit (satVal (sys_world s)) = true)).
  - intros t' s' H'. apply telemetry_in_unit_step, H'.
  - split; reflexivity.
Qed.

(** The gate parameters [main] sets before it starts the audio (detector
    gain, reduction, slope) are never pushed by the callback, in any
    block of any run. *)
Theorem gate_fixed_params_untouched
  (ts : list Tick) s (o : Obs) :
  In o (snd (sys_run ts s)) ->
  ng_pushed P_DETECTOR_GAIN (obs_trace o) = []
  /\ ng_pushed P_REDUCTION (obs_trace o) = []
  /\ ng_pushed P_SLOPE (obs_trace o) = [].
Proof.
  intros Ho. destruct (obs_in_run _ _ _ Ho) as (ts1 & t & ->).
  destruct t as [now|hw inL inR].
  - cbn [sys_step]. destruct (main_iter _ _ _) as [[m w'] leds].
    repeat split; reflexivity.
  - cbn [sys_step snd obs_trace].
    rewrite (ng_pushed_config P_DETECTOR_GAIN),
      (ng_pushed_config P_REDUCTION), (ng_pushed_config P_SLOPE).
    destruct (initialized (sys_world (fst (sys_run ts1 s)))) eqn:Hi.
    + rewrite (ng_config_block _ _ _ _ Hi).
      destruct (first _ || shift_of hw _); repeat split; reflexivity.
    + unfold AudioCallback. rewrite Hi. repeat split; reflexivity.
Qed.

End Runs.

Section BootRuns.

Context {GV D G : Type}.
Context {grab : GrabValue GV} {distE : PRatDist D} {gateE : NoiseGate G}.

Implicit Types (s : @Sys GV D G) (w : @World GV D G) (t : Tick).

(** The 32-bit clock may wrap between boot and a later reading: the
    elapsed time the loop computes is still the time that passed, so a
    loop iteration in BLINKING, [d] ms after boot, leaves BLINKING exactly
    when [d] is at least 1000. *)
Theorem boot_window_across_wrap (boot d : Z) s :
  (0 <= boot < 2 ^ 32)%Z ->
  (0 <= d < 2 ^ 32)%Z ->
  boottime (sys_main s) = boot ->
  boot_state s = BLINKING ->
  elapsed_of ((boot + d) mod 2 ^ 32) boot = d
  /\ boot_state (fst (sys_step (MainIter ((boot + d) mod 2 ^ 32)) s))
     = (if (d <? 1000)%Z then BLINKING else READY).
Proof.
  intros Hb Hd Hbt Hs.
  assert (He : elapsed_of ((boot + d) mod 2 ^ 32) boot = d).
  { unfold elapsed_of. rewrite Zminus_mod_idemp_l.
    replace (boot + d - boot)%Z with d by lia.
    apply Z.mod_small. exact Hd. }
  split; [exact He|].
  apply boot_state_BLINKING in Hs.
  pose proof (initialized_after_main ((boot + d) mod 2 ^ 32) s) as Hi.
  rewrite Hs, Hbt, He in Hi. cbn [orb] in Hi.
  unfold boot_state. rewrite Hi. rewrite Z.leb_antisym.
  destruct (d <? 1000)%Z; reflexivity.
Qed.

Lemma boot_leds_ready (ts : list Tick) :
  forall s, boot_state s = READY -> boot_leds (sys_log ts s) = [].
Proof.
  induction ts as [|t ts IH]; intros s Hs; [reflexivity|].
  cbn [sys_log]. unfold boot_leds. cbn [flat_map fst snd]. rewrite Hs.
  cbn [app]. apply IH. apply ready_step. exact Hs.
Qed.

Lemma boot_leds_spent (ts : list Tick) :
  forall s,
  main_first (sys_main s) = false -> boot_leds (sys_log ts s) = [].
Proof.
  induction ts as [|t ts IH]; intros s Hm; [reflexivity|].
  cbn [sys_log]. unfold boot_leds. cbn [flat_map fst snd].
  fold (boot_leds (sys_log ts (fst (sys_step t s)))).
  destruct t as [now|hw inL inR].
  - unfold sys_step at 1, main_iter.
    rewrite IH.
    + rewrite app_nil_r. unfold boot_state.
      destruct (initialized (sys_world s)); [reflexivity|].
      cbn [negb].
      destruct (elapsed_of now (boottime (sys_main s)) <? 1000)%Z.
      * rewrite Hm. reflexivity.
      * reflexivity.
    + unfold sys_step, main_iter.
      destruct (initialized (sys_world s)); cbn [negb]; [exact Hm|].
      destruct (elapsed_of now (boottime (sys_main s)) <? 1000)%Z.
      * rewrite Hm. exact Hm.
      * exact Hm.
  - cbn [sys_step snd obs_leds]. rewrite IH by exact Hm.
    destruct (boot_state s); reflexivity.
Qed.

(** The boot pattern of the LEDs is written at most once per run, by the
    first loop iteration if that one still reads less than 1000 ms: all
    LED calls made before READY, taken together, are either none or the
    three calls of the pattern. *)
Theorem boot_pattern_once (boot : Z) (d0 : D) (g0 : G) (ts : list Tick) :
  (boot_leds (sys_log ts (sys_init boot d0 g0)) = []
   \/ boot_leds (sys_log ts (sys_init boot d0 g0)) = boot_pattern)
  /\ (forall (now : Z) (rest : list Tick),
        (elapsed_of now boot < 1000)%Z ->
        boot_leds (sys_log (MainIter now :: rest) (sys_init boot d0 g0))
        = boot_pattern)
  /\ (forall (now : Z) (rest : list Tick),
        (1000 <= elapsed_of now boot)%Z ->
        boot_leds (sys_log (MainIter now :: rest) (sys_init boot d0 g0))
        = []).
Proof.
  assert (Hmain : forall now rest,
             boot_leds (sys_log (MainIter now :: rest)
                                (sys_init boot d0 g0))
             = if (elapsed_of now boot <? 1000)%Z then boot_pattern else []).
  { intros now rest. cbn [sys_log]. unfold boot_leds.
    cbn [flat_map fst snd].
    fold (boot_leds (sys_log rest
                       (fst (sys_step (MainIter now) (sys_init boot d0 g0))))).
    unfold sys_step, main_iter, sys_init.
    cbn [sys_world sys_main world_init initialized negb boottime main_first
         boot_state].
    destruct (elapsed_of now boot <? 1000)%Z.
    - cbn [fst snd obs_leds]. rewrite boot_leds_spent by reflexivity.
      reflexivity.
    - cbn [fst snd obs_leds app]. apply boot_leds_ready. reflexivity. }
  split; [|split].
  - induction ts as [|t ts IH]; [left; reflexivity|].
    destruct t as [now|hw inL inR].
    + rewrite Hmain. destruct (elapsed_of now boot <? 1000)%Z; auto.
    + cbn [sys_log]. unfold boot_leds. cbn [flat_map fst snd].
      replace (fst (sys_step (AudioBlock hw inL inR) (sys_init boot d0 g0)))
        with (sys_init boot d0 g0) by reflexivity.
      replace (obs_leds (snd (sys_step (AudioBlock hw inL inR)
                                       (sys_init boot d0 g0))))
        with (@nil LedCall) by reflexivity.
      cbn [boot_state sys_init sys_world world_init initialized app].
      exact IH.
  - intros now rest Hlt. rewrite Hmain.
    apply Z.ltb_lt in Hlt. rewrite Hlt. reflexivity.
  - intros now rest Hge. rewrite Hmain.
    apply Z.ltb_ge in Hge. rewrite Hge. reflexivity.
Qed.

(** Until boot is over nothing touches the world: in every state a run
    reaches that is still BLINKING, the engines, the telemetry and the
    callback's statics are exactly as [main] left them, however many
    blocks the callback was given. *)
Theorem boot_keeps_world (boot : Z) (d0 : D) (g0 : G) (ts : list Tick) :
  boot_state (fst (sys_run ts (sys_init boot d0 g0))) = BLINKING ->
  sys_world (fst (sys_run ts (sys_init boot d0 g0))) = world_init d0 g0.
Proof.
  induction ts as [|t ts IH] using rev_ind; intros Hb; [reflexivity|].
  rewrite sys_run_snoc in *.
  set (s := fst (sys_run ts (sys_init boot d0 g0))) in *.
  assert (Hs : boot_state s = BLINKING).
  { destruct (boot_state s) eqn:E; [reflexivity|].
    rewrite (ready_step t s E) in Hb. discriminate. }
  specialize (IH Hs). apply boot_state_BLINKING in Hs.
  apply boot_state_BLINKING in Hb.
  destruct t as [now|hw inL inR].
  - unfold sys_step, main_iter in *. rewrite Hs in *. cbn [negb] in *.
    destruct (elapsed_of now (boottime (sys_main s)) <? 1000)%Z.
    + destruct (main_first (sys_main s)); cbn; exact IH.
    + cbn in Hb. discriminate.
  - cbn [sys_step fst sys_world]. unfold AudioCallback. rewrite Hs.
    cbn. exact IH.
Qed.

End BootRuns.

Section Encoder.

Context {GV D G : Type}.
Context {grab : GrabValue GV} {distE : PRatDist D} {gateE : NoiseGate G}.

Implicit Types (s : @Sys GV D G) (w : @World GV D G) (st : @Statics GV).

(** What [fclamp(., 0.f, 1.f)] returns is changed neither by adding
    [0.f] nor by clamping again. *)
Lemma fclamp_settled (x : float) : settled (fclamp x F32.zero F32.one).
Proof.
  unfold settled, fclamp, fmin, fmax, F32.gtb, F32.ltb.
  destruct (SFltb F32.zero x) eqn:E0.
  - destruct (SFltb x F32.one) eqn:E1.
    + rewrite E0, E1. split; [|reflexivity].
      destruct x as [sx|sx| |sx m e]; try discriminate.
      * destruct sx; discriminate.
      * reflexivity.
    + split; reflexivity.
  - split; reflexivity.
Qed.

Lemma half_settled : settled F32.half.
Proof. split; reflexivity. Qed.

Lemma controls_step_settled (hw : Controls) st :
  settled (cur_gain st) ->
  settled (cur_level st) ->
  settled (cur_gain (controls_step hw st))
  /\ settled (cur_level (controls_step hw st)).
Proof.
  intros Hg Hl. unfold controls_step.
  destruct (grabs_keep_gain_level (shift_of hw st) (knob_top hw)
              (knob_bottom hw) st) as (Eg & El & _).
  unfold encoder_step. destruct (shift_of hw st);
    cbn [cur_gain cur_level]; rewrite ?Eg, ?El; split;
    assumption || apply fclamp_settled.
Qed.

Lemma settled_step (t : Tick) s :
  settled (cur_gain (statics (sys_world s)))
  /\ settled (cur_level (statics (sys_world s))) ->
  settled (cur_gain (statics (sys_world (fst (sys_step t s)))))
  /\ settled (cur_level (statics (sys_world (fst (sys_step t s))))).
Proof.
  intros [Hg Hl]. destruct t as [now|hw inL inR].
  - destruct (main_keeps_world now s) as (_ & _ & _ & _ & ->).
    split; assumption.
  - cbn [sys_step fst sys_world].
    destruct (initialized (sys_world s)) eqn:Hi.
    + rewrite (statics_after_block _ _ _ _ Hi). cbn [cur_gain cur_level].
      apply controls_step_settled; assumption.
    + unfold AudioCallback. rewrite Hi. cbn. split; assumption.
Qed.

Lemma settled_reachable (boot : Z) (d0 : D) (g0 : G) s :
  reachable boot d0 g0 s ->
  settled (cur_gain (statics (sys_world s)))
  /\ settled (cur_level (statics (sys_world s))).
Proof.
  intros [ts ->].
  apply (run_invariant
           (fun s => settled (cur_gain (statics (sys_world s)))
                     /\ settled (cur_level (statics (sys_world s))))).
  - intros t s' H'. apply settled_step, H'.
  - split; apply half_settled.
Qed.

(** In every state the system reaches, a processed block whose encoder
    increment is of magnitude below 16 leaves the stored gain and the
    stored level exactly as they were, held or not: the increment of line
    82 is an integer quotient. *)
Theorem encoder_small_steps_lost
  (boot : Z) (d0 : D) (g0 : G) s (hw : Controls) (inL inR : buf) :
  reachable boot d0 g0 s ->
  initialized (sys_world s) = true ->
  (Z.abs (enc_increment hw) < 16)%Z ->
  cur_gain (statics (b_world (AudioCallback hw inL inR (sys_world s))))
  = cur_gain (statics (sys_world s))
  /\ cur_level (statics (b_world (AudioCallback hw inL inR (sys_world s))))
     = cur_level (statics (sys_world s)).
Proof.
  intros Hr Hi Hn.
  destruct (settled_reachable _ _ _ _ Hr) as [[Hg0 Hg1] [Hl0 Hl1]].
  rewrite (statics_after_block _ _ _ _ Hi). cbn [cur_gain cur_level].
  unfold controls_step. rewrite (encInc_of_small hw Hn).
  destruct (grabs_keep_gain_level
              (shift_of hw (statics (sys_world s))) (knob_top hw)
              (knob_bottom hw) (statics (sys_world s))) as (Eg & El & _).
  unfold encoder_step.
  destruct (shift_of hw (statics (sys_world s)));
    cbn [cur_gain cur_level]; rewrite ?Eg, ?El, ?Hg0, ?Hl0, ?Hg1, ?Hl1;
    split; reflexivity.
Qed.

(** In every state the system reaches, the level a processed block pushes
    to the distortion engine is the stored level itself, and with a pitch
    CV of 0.f the gain it pushes is the stored gain itself: the stored
    values are always clamped already. *)
Theorem stored_gain_level_dispatched
  (boot : Z) (d0 : D) (g0 : G) s (hw : Controls) (inL inR : buf) :
  reachable boot d0 g0 s ->
  initialized (sys_world s) = true ->
  dist_pushed P_LEVEL (b_trace (AudioCallback hw inL inR (sys_world s)))
  = [cur_level (statics (b_world (AudioCallback hw inL inR (sys_world s))))]
  /\ (pitch_cv hw = F32.zero ->
      dist_pushed P_GAIN (b_trace (AudioCallback hw inL inR (sys_world s)))
      = [cur_gain
           (statics (b_world (AudioCallback hw inL inR (sys_world s))))]).
Proof.
  intros Hr Hi.
  destruct (settled_reachable _ _ _ _ Hr) as [Hg Hl].
  destruct (controls_step_settled hw _ Hg Hl) as [[Hg0 Hg1] [Hl0 Hl1]].
  rewrite !(dist_pushed_block _ _ _ _ _ Hi), (statics_after_block _ _ _ _ Hi).
  cbn [cur_gain cur_level]. unfold dist_dispatch.
  split.
  - destruct (F32.geb (hard_of hw) F32.half); cbn [app dist_pushed flat_map
      DistParam_eqb]; unfold level_of; rewrite Hl1; reflexivity.
  - intros Hcv.
    destruct (F32.geb (hard_of hw) F32.half); cbn [app dist_pushed flat_map
      DistParam_eqb]; unfold gain_of; rewrite Hcv, Hg0, Hg1; reflexivity.
Qed.

End Encoder.

(** ** The further properties on concrete inputs *)

Section ConcreteRuns.

Import Mock.

Lemma dist_params_in_unit_range_witness :
  (initialized (ready F32.five F32.half) = true
   /\ In F32.zero
        (dist_pushed P_FILTER
           (b_trace (AudioCallback (idle S754_nan) [F32.one] [F32.half]
                                   (ready F32.five F32.half)))))
  /\ in_unit F32.zero = true.
Proof.
  assert (Hin : In F32.zero
                  (dist_pushed P_FILTER
                     (b_trace (AudioCallback (idle S754_nan) [F32.one]
                                 [F32.half] (ready F32.five F32.half)))))
    by (left; vm_compute; reflexivity).
  split; [split; [reflexivity | exact Hin]|].
  exact (dist_params_in_unit_range (idle S754_nan) [F32.one] [F32.half]
           (ready F32.five F32.half) P_FILTER F32.zero eq_refl Hin).
Defined.

Lemma dist_dispatch_every_block_witness :
  initialized (ready F32.five F32.half) = true
  /\ exists sets : list Event,
       dist_calls (b_trace (AudioCallback (idle F32.half) [F32.one]
                              [F32.half] (ready F32.five F32.half)))
       = sets ++ [DistUpdate; DistProcess [F32.one] [F32.half]].
Proof.
  split; [reflexivity|].
  destruct (dist_dispatch_every_block (idle F32.half) [F32.one] [F32.half]
              (ready F32.five F32.half) eq_refl) as (sets & Hcalls & _).
  exists sets. exact Hcalls.
Defined.

Lemma mode_flags_exclusive_witness :
  initialized (ready F32.five F32.half) = true
  /\ ~ (dist_pushed P_RUETZ
          (b_trace (AudioCallback
                      (with_switches POS_DOWN POS_CENTER (idle F32.half))
                      [F32.one] [F32.half] (ready F32.five F32.half)))
        = [F32.one]
        /\ dist_pushed P_TIGHT
             (b_trace (AudioCallback
                         (with_switches POS_DOWN POS_CENTER (idle F32.half))
                         [F32.one] [F32.half] (ready F32.five F32.half)))
           = [F32.one]).
Proof.
  split; [reflexivity|].
  exact (proj1 (mode_flags_exclusive
                  (with_switches POS_DOWN POS_CENTER (idle F32.half))
                  [F32.one] [F32.half] (ready F32.five F32.half) eq_refl)).
Defined.

Lemma shift_follows_encoder_witness :
  (initialized (ready F32.five F32.half) = true
   /\ first (statics (ready F32.five F32.half)) = true)
  /\ run_shifts hold_ins (ready F32.five F32.half)
     = [false; true; true; false].
Proof.
  split; [split; reflexivity|].
  exact (proj1 (shift_follows_encoder hold_ins (ready F32.five F32.half)
                  eq_refl eq_refl)).
Defined.

Lemma statics_depend_on_controls_only_witness :
  (initialized (ready F32.five F32.half) = true
   /\ initialized (ready F32.half F32.five) = true
   /\ statics (ready F32.five F32.half) = statics (ready F32.half F32.five)
   /\ knob_top (idle F32.half)
      = knob_top (with_switches POS_DOWN POS_CENTER (idle F32.half))
   /\ knob_bottom (idle F32.half)
      = knob_bottom (with_switches POS_DOWN POS_CENTER (idle F32.half))
   /\ enc_pressed (idle F32.half)
      = enc_pressed (with_switches POS_DOWN POS_CENTER (idle F32.half))
   /\ enc_increment (idle F32.half)
      = enc_increment (with_switches POS_DOWN POS_CENTER (idle F32.half)))
  /\ statics (b_world (AudioCallback (idle F32.half) [F32.one] [F32.half]
                                     (ready F32.five F32.half)))
     = statics (b_world (AudioCallback
                           (with_switches POS_DOWN POS_CENTER
                                          (idle F32.half))
                           [F32.zero] [] (ready F32.half F32.five))).
Proof.
  split; [repeat split; reflexivity|].
  exact (statics_depend_on_controls_only
           (idle F32.half)
           (with_switches POS_DOWN POS_CENTER (idle F32.half))
           [F32.one] [F32.half] [F32.zero] []
           (ready F32.five F32.half) (ready F32.half F32.five)
           eq_refl eq_refl eq_refl eq_refl eq_refl eq_refl eq_refl).
Defined.

Lemma knobs_reach_engines_witness :
  (initialized (ready F32.five F32.half) = true
   /\ shift_of (idle F32.half) (statics (ready F32.five F32.half)) = false)
  /\ dist_pushed P_FILTER
       (b_trace (AudioCallback (idle F32.half) [F32.one] [F32.half]
                               (ready F32.five F32.half)))
     = [F32.half].
Proof.
  split; [split; reflexivity|].
  destruct (knobs_reach_engines (idle F32.half) [F32.one] [F32.half]
              (ready F32.five F32.half) eq_refl) as [Hoff _].
  destruct (Hoff eq_refl) as [Hf _]. rewrite Hf. vm_compute. reflexivity.
Defined.

Lemma locked_values_hold_witness :
  (initialized (ready F32.five F32.half) = true
   /\ shift_of (idle F32.one) (statics (ready F32.five F32.half)) = false)
  /\ gv_Get (ng_threshold
               (statics (b_world (AudioCallback (idle F32.one) [F32.one]
                                    [F32.half] (ready F32.five F32.half)))))
     = gv_Get (ng_threshold (statics (ready F32.five F32.half))).
Proof.
  split; [split; reflexivity|].
  destruct (locked_values_hold (idle F32.one) [F32.one] [F32.half]
              (ready F32.five F32.half) eq_refl) as [_ Hoff].
  destruct (Hoff eq_refl) as [Ht _]. exact Ht.
Defined.

Lemma led_channels_in_unit_range_witness :
  (In (ObsLeds [SetLed LED_LEFT F32.zero F32.one F32.zero;
                SetLed LED_RIGHT F32.one F32.zero F32.zero;
                UpdateLeds])
      (snd (sys_run [MainIter 1000;
                     AudioBlock (idle F32.half) [F32.one] [F32.half];
                     MainIter 1001] sys0))
   /\ In (SetLed LED_LEFT F32.zero F32.one F32.zero)
         (obs_leds (ObsLeds [SetLed LED_LEFT F32.zero F32.one F32.zero;
                             SetLed LED_RIGHT F32.one F32.zero F32.zero;
                             UpdateLeds]))
   /\ In F32.one (led_channels (SetLed LED_LEFT F32.zero F32.one F32.zero)))
  /\ in_unit F32.one = true.
Proof.
  assert (Ho : In (ObsLeds [SetLed LED_LEFT F32.zero F32.one F32.zero;
                            SetLed LED_RIGHT F32.one F32.zero F32.zero;
                            UpdateLeds])
                  (snd (sys_run [MainIter 1000;
                                 AudioBlock (idle F32.half) [F32.one]
                                            [F32.half];
                                 MainIter 1001] sys0)))
    by (right; right; left; vm_compute; reflexivity).
  assert (Hc : In (SetLed LED_LEFT F32.zero F32.one F32.zero)
                  (obs_leds
                     (ObsLeds [SetLed LED_LEFT F32.zero F32.one F32.zero;
                               SetLed LED_RIGHT F32.one F32.zero F32.zero;
                               UpdateLeds])))
    by (left; reflexivity).
  assert (Hx : In F32.one
                  (led_channels
                     (SetLed LED_LEFT F32.zero F32.one F32.zero)))
    by (right; left; reflexivity).
  split; [split; [exact Ho | split; [exact Hc | exact Hx]]|].
  exact (led_channels_in_unit_range 0 (d0 F32.five) (g0 F32.half)
           _ _ _ _ Ho Hc Hx).
Defined.

Lemma gate_fixed_params_untouched_witness :
  exists o : Obs,
    In o (snd (sys_run [MainIter 1000;
                        AudioBlock (idle F32.half) [F32.one] [F32.half]]
                       sys0))
    /\ ng_pushed P_THRESHOLD (obs_trace o) = [F32.c0_4]
    /\ ng_pushed P_SLOPE (obs_trace o) = [].
Proof.
  eexists. split; [right; left; reflexivity|].
  split; [vm_compute; reflexivity|].
  apply (gate_fixed_params_untouched
           [MainIter 1000; AudioBlock (idle F32.half) [F32.one] [F32.half]]
           sys0).
  right; left; reflexivity.
Defined.

Lemma boot_window_across_wrap_witness :
  ((0 <= 4294966796 < 2 ^ 32)%Z
   /\ (0 <= 1200 < 2 ^ 32)%Z
   /\ boottime (sys_main (sys_init 4294966796 (d0 F32.five) (g0 F32.half)))
      = 4294966796%Z
   /\ boot_state (sys_init 4294966796 (d0 F32.five) (g0 F32.half))
      = BLINKING)
  /\ elapsed_of 700 4294966796 = 1200%Z
  /\ boot_state
       (fst (sys_step (MainIter 700)
                      (sys_init 4294966796 (d0 F32.five) (g0 F32.half))))
     = READY.
Proof.
  split; [repeat split; (reflexivity || lia)|].
  apply (boot_window_across_wrap 4294966796 1200
           (sys_init 4294966796 (d0 F32.five) (g0 F32.half)));
    [lia | lia | reflexivity | reflexivity].
Defined.

Lemma boot_keeps_world_witness :
  boot_state
    (fst (sys_run [MainIter 0;
                   AudioBlock (with_pressed true (idle F32.one))
                              [F32.one] [F32.half];
                   MainIter 999] sys0))
  = BLINKING
  /\ sys_world
       (fst (sys_run [MainIter 0;
                      AudioBlock (with_pressed true (idle F32.one))
                                 [F32.one] [F32.half];
                      MainIter 999] sys0))
     = world_init (d0 F32.five) (g0 F32.half).
Proof.
  split; [reflexivity|].
  exact (boot_keeps_world 0 (d0 F32.five) (g0 F32.half)
           [MainIter 0;
            AudioBlock (with_pressed true (idle F32.one))
                       [F32.one] [F32.half];
            MainIter 999] eq_refl).
Defined.

Lemma encoder_small_steps_lost_witness :
  (reachable 0 (d0 F32.five) (g0 F32.half) (fst (sys_run boot_ticks sys0))
   /\ initialized (sys_world (fst (sys_run boot_ticks sys0))) = true
   /\ (Z.abs (enc_increment (with_increment (-1) (idle F32.half))) < 16)%Z)
  /\ cur_gain
       (statics
          (b_world (AudioCallback (with_increment (-1) (idle F32.half))
                      [F32.one] [F32.half]
                      (sys_world (fst (sys_run boot_ticks sys0))))))
     = F32.half.
Proof.
  assert (Hr : reachable 0 (d0 F32.five) (g0 F32.half)
                 (fst (sys_run boot_ticks sys0)))
    by (exists boot_ticks; reflexivity).
  split; [split; [exact Hr | split; reflexivity]|].
  exact (proj1 (encoder_small_steps_lost 0 (d0 F32.five) (g0 F32.half)
                  (fst (sys_run boot_ticks sys0))
                  (with_increment (-1) (idle F32.half))
                  [F32.one] [F32.half] Hr eq_refl eq_refl)).
Defined.

Lemma stored_gain_level_dispatched_witness :
  (reachable 0 (d0 F32.five) (g0 F32.half) (fst (sys_run boot_ticks sys0))
   /\ initialized (sys_world (fst (sys_run boot_ticks sys0))) = true)
  /\ dist_pushed P_LEVEL
       (b_trace (AudioCallback (idle F32.half) [F32.one] [F32.half]
                   (sys_world (fst (sys_run boot_ticks sys0)))))
     = [F32.half].
Proof.
  assert (Hr : reachable 0 (d0 F32.five) (g0 F32.half)
                 (fst (sys_run boot_ticks sys0)))
    by (exists boot_ticks; reflexivity).
  split; [split; [exact Hr | reflexivity]|].
  exact (proj1 (stored_gain_level_dispatched 0 (d0 F32.five) (g0 F32.half)
                  (fst (sys_run boot_ticks sys0)) (idle F32.half)
                  [F32.one] [F32.half] Hr eq_refl)).
Defined.

End ConcreteRuns.
